(** * TicketChangeNotifier: the fetch / diff / notify cycle of
      [scripts/automations/get_match_tickets_info.py]

    The script is embedded as a first-order program over an explicit
    [world]: the module-level configuration read from the environment and
    the answers of the three external collaborators (ticket endpoint,
    Twilio, webhook).  Every effect the script performs is recorded, in
    program order, in a trace of [event]s; Python exceptions are a second
    kind of result.  Python [str] values are kept as their UTF-8 bytes. *)

From Stdlib Require Import ZArith String Ascii List Bool Lia.
From stdpp Require Import base decidable gmap strings list pretty.

Set Warnings "-register-all".

Local Open Scope string_scope.
Local Open Scope Z_scope.
Local Open Scope list_scope.
Local Open Scope stdpp_scope.

(** ** Python values and the builtins the script uses *)

Module Py.

(** What [req.json()] can return.  A [float] is carried as its binary64 bit
    pattern; a [dict] keeps its insertion order (keys are distinct). *)
Inductive json : Type :=
| JNone
| JBool (b : bool)
| JInt (z : Z)
| JFloat (bits : Z)
| JStr (s : string)
| JList (l : list json)
| JDict (d : list (string * json)).

Definition type_name (v : json) : string :=
  match v with
  | JNone => "NoneType"
  | JBool _ => "bool"
  | JInt _ => "int"
  | JFloat _ => "float"
  | JStr _ => "str"
  | JList _ => "list"
  | JDict _ => "dict"
  end.

(** The part of Python's exception hierarchy the handlers distinguish:
    [except requests.RequestException] against [except Exception]. *)
Inductive exn_class : Type :=
| RequestException
| RetryError
| AttributeError
| TypeError
| OtherException.

(** An exception with the text [str(e)] that the f-strings print. *)
Record exn : Type := Exn { exn_cls : exn_class; exn_text : string }.

Definition is_request_exception (e : exn) : bool :=
  match exn_cls e with
  | RequestException => true
  | _ => false
  end.

Inductive outcome (A : Type) : Type :=
| Ok (a : A)
| Raise (e : exn).
Arguments Ok {A} a.
Arguments Raise {A} e.

(** [d.get(key, default)] on a dict; any other value has no attribute
    [get]. *)
Fixpoint assoc (key : string) (d : list (string * json)) : option json :=
  match d with
  | [] => None
  | (k, v) :: d' => if String.eqb k key then Some v else assoc key d'
  end.

Definition dict_get (d : list (string * json)) (key : string)
    (dflt : json) : json :=
  match assoc key d with
  | Some v => v
  | None => dflt
  end.

Definition get (v : json) (key : string) (dflt : json) : outcome json :=
  match v with
  | JDict d => Ok (dict_get d key dflt)
  | _ => Raise (Exn AttributeError
                  ("'" +:+ type_name v +:+ "' object has no attribute 'get'"))
  end.

(** [v is False] *)
Definition is_False (v : json) : bool :=
  match v with
  | JBool false => true
  | _ => false
  end.

(** What [for x in v] enumerates. *)
Definition chars (s : string) : list json :=
  (fun c => JStr (String c EmptyString)) <$> list_ascii_of_string s.

Definition iter (v : json) : outcome (list json) :=
  match v with
  | JList l => Ok l
  | JDict d => Ok ((fun kv => JStr (fst kv)) <$> d)
  | JStr s => Ok (chars s)
  | _ => Raise (Exn TypeError
                  ("'" +:+ type_name v +:+ "' object is not iterable"))
  end.

(** [str(v)].  The rendering of floats and containers is [repr], which is
    not modelled and is taken as a parameter. *)
Definition str (repr : json -> string) (v : json) : string :=
  match v with
  | JNone => "None"
  | JBool true => "True"
  | JBool false => "False"
  | JInt z => pretty z
  | JStr s => s
  | _ => repr v
  end.

(** [s.strip()]: white space is removed at both ends.  On UTF-8 bytes the
    white-space characters of [str.isspace] are one, two or three bytes
    long. *)
Definition byte (c : ascii) : N := N_of_ascii c.

Definition ws1 (c : ascii) : bool :=
  let n := byte c in
  ((9 <=? n) && (n <=? 13) || (28 <=? n) && (n <=? 32))%N.

(* U+0085, U+00A0 *)
Definition ws2 (c1 c2 : ascii) : bool :=
  ((byte c1 =? 194) && ((byte c2 =? 133) || (byte c2 =? 160)))%N.

(* U+1680, U+2000..U+200A, U+2028, U+2029, U+202F, U+205F, U+3000 *)
Definition ws3 (c1 c2 c3 : ascii) : bool :=
  let '(a, b, c) := (byte c1, byte c2, byte c3) in
  ((a =? 225) && (b =? 154) && (c =? 128)
   || (a =? 226) && (b =? 128)
      && ((128 <=? c) && (c <=? 138) || (c =? 168) || (c =? 169) || (c =? 175))
   || (a =? 226) && (b =? 129) && (c =? 159)
   || (a =? 227) && (b =? 128) && (c =? 128))%N.

Fixpoint lstrip (s : string) : string :=
  match s with
  | String c1 s1 =>
      if ws1 c1 then lstrip s1 else
      match s1 with
      | String c2 s2 =>
          if ws2 c1 c2 then lstrip s2 else
          match s2 with
          | String c3 s3 => if ws3 c1 c2 c3 then lstrip s3 else s
          | EmptyString => s
          end
      | EmptyString => s
      end
  | EmptyString => s
  end.

(** The same scan from the end, on the reversed bytes. *)
Fixpoint lstrip_rev (r : string) : string :=
  match r with
  | String c1 r1 =>
      if ws1 c1 then lstrip_rev r1 else
      match r1 with
      | String c2 r2 =>
          if ws2 c2 c1 then lstrip_rev r2 else
          match r2 with
          | String c3 r3 => if ws3 c3 c2 c1 then lstrip_rev r3 else r
          | EmptyString => r
          end
      | EmptyString => r
      end
  | EmptyString => r
  end.

Definition rstrip (s : string) : string :=
  String.rev (lstrip_rev (String.rev s)).

Definition strip (s : string) : string := rstrip (lstrip s).

(** [sub in s] on strings. *)
Fixpoint contains (sub s : string) : bool :=
  String.prefix sub s ||
  match s with
  | String _ s' => contains sub s'
  | EmptyString => false
  end.

Definition newline : string := String (ascii_of_nat 10) EmptyString.

(** [sep.join(lines)] *)
Definition join (sep : string) (lines : list string) : string :=
  String.concat sep lines.

End Py.

Import Py.

(** ** The world outside the script, and what the script does to it *)

(** Module-level configuration (read from the environment once, at import)
    and the behaviour of the external collaborators during one run. *)
Record world : Type := World {
  TICKET_URL : option string;
  KNOWN_TICKET_IDS : gset string;
  TWILIO_FROM_NUMBER : option string;
  TWILIO_TO_NUMBER : option string;
  DEBUG_MODE : bool;
  STOP_EXECUTION : bool;
  WEBHOOK_URL : option string;
  (** the body of [fetch_tickets] on its n-th execution: [requests.get],
      [raise_for_status], [req.json()] *)
  http_get : nat -> outcome json;
  (** [client.messages.create(to, from_, body)]: the message SID *)
  twilio_create : string -> outcome string;
  (** [requests.post(url, json=payload)] followed by [raise_for_status] *)
  http_post : string -> json -> outcome unit;
  (** Python's [repr] of floats and containers *)
  py_repr : json -> string;
  (** the text of the [Future] that a [RetryError] prints *)
  future_repr : exn -> string
}.

Inductive level : Type := DEBUG | INFO | WARNING | ERROR | CRITICAL.

Inductive event : Type :=
| Log (lvl : level) (text : string)
| HttpGet (url : option string)
| Sleep (seconds : Z)
| TwilioCreate (to from_ : option string) (body : string)
| HttpPost (url : string) (payload : json).

(** A computation: the events it performed, and how it ended. *)
Definition M (A : Type) : Type := list event * outcome A.

#[global] Instance M_ret : MRet M := fun A a => ([], Ok a).

#[global] Instance M_bind : MBind M := fun A B f m =>
  match m with
  | (t, Ok a) => let '(t', r) := f a in (t ++ t', r)
  | (t, Raise e) => (t, Raise e)
  end.

Definition trace {A : Type} (m : M A) : list event := fst m.
Definition result {A : Type} (m : M A) : outcome A := snd m.

Definition emit (ev : event) : M unit := ([ev], Ok tt).

Definition raise {A : Type} (e : exn) : M A := ([], Raise e).

(** A pure operation that may raise. *)
Definition lift {A : Type} (o : outcome A) : M A := ([], o).

(** [try: m  except Exception as e: handler e] *)
Definition try_except {A : Type} (m : M A) (handler : exn -> M A) : M A :=
  match m with
  | (t, Ok a) => (t, Ok a)
  | (t, Raise e) => let '(t', r) := handler e in (t ++ t', r)
  end.

(** The [try] block of a [try]/[except] whose handlers end the function:
    the exception, if any, becomes a value. *)
Definition attempt {A : Type} (m : M A) : M (outcome A) :=
  (trace m, Ok (result m)).

Definition logger (lvl : level) (text : string) : M unit :=
  emit (Log lvl text).


(** ** The script *)

Section Script.

Variable w : world.

Definition str_ (v : json) : string := Py.str (py_repr w) v.

Definition send_message (message : string) : M unit :=
  if DEBUG_MODE w then
    logger INFO
      "Debug mode is enabled. Skipping sending message and printing to console.";;
    logger INFO ("Message: " +:+ message)
  else
    logger INFO ("Sending message: " +:+ message +:+ " ...");;
    emit (TwilioCreate (TWILIO_TO_NUMBER w) (TWILIO_FROM_NUMBER w) message);;
    sid ← lift (twilio_create w message);
    logger INFO ("Message sent successfully (SID: " +:+ sid +:+ ")").

(** The lines of the webhook message, one per ticket. *)
Fixpoint ticket_lines (new_tickets : list json) (message_lines : list string)
    : M (list string) :=
  match new_tickets with
  | [] => mret message_lines
  | ticket :: rest =>
      title ← lift (get ticket "title" (JStr "Unknown"));
      ticket_id ← lift (get ticket "idx" (JStr "Unknown"));
      ticket_lines rest
        (message_lines ++
           ["• " +:+ str_ title +:+ " (ID: " +:+ str_ ticket_id +:+ ")"])
  end.

Definition webhook_payload (webhook_url message : string)
    (new_tickets : list json) : json :=
  if contains "discord.com" webhook_url then
    JDict [("content", JStr message); ("username", JStr "Ticket Monitor")]
  else if contains "slack.com" webhook_url then
    JDict [("text", JStr message)]
  else
    JDict [("message", JStr message); ("tickets", JList new_tickets)].

Definition send_webhook_notification (new_tickets : list json) : M unit :=
  match WEBHOOK_URL w with
  | None | Some EmptyString =>
      logger WARNING "WEBHOOK_URL not set, skipping notification"
  | Some webhook_url =>
      message_lines ←
        ticket_lines new_tickets
          ["🎫 **New Match Tickets Available!**" +:+ newline];
      let message := join newline message_lines in
      let payload := webhook_payload webhook_url message new_tickets in
      try_except
        (emit (HttpPost webhook_url payload);;
         lift (http_post w webhook_url payload);;
         logger INFO "Webhook notification sent successfully")
        (fun e =>
           if is_request_exception e then
             logger ERROR
               ("Failed to send webhook notification: " +:+ exn_text e)
           else raise e)
  end.

(** *** [fetch_tickets] under tenacity's [retry] *)

Definition stop_after_attempt (max_attempt_number : nat)
    (attempt_number : nat) : bool :=
  (max_attempt_number <=? attempt_number)%nat.

(** tenacity's [wait_exponential.__call__], with [exp_base = 2]:
    [max(max(0, min), min(multiplier * 2 ** (attempt_number - 1), max))] *)
Definition wait_exponential (multiplier min max : Z) (attempt_number : nat)
    : Z :=
  Z.max (Z.max 0 min)
        (Z.min (multiplier * 2 ^ (Z.of_nat attempt_number - 1)) max).

Definition wait (attempt_number : nat) : Z :=
  wait_exponential 1 2 10 attempt_number.

Definition before_sleep (attempt_number : nat) : M unit :=
  logger WARNING
    ("Request failed, retrying... (attempt " +:+ pretty attempt_number
       +:+ "/3)").

(** One execution of the decorated function's body. *)
Definition fetch_once (attempt_number : nat) : M json :=
  emit (HttpGet (TICKET_URL w));;
  lift (http_get w attempt_number).

(** The retry loop, from attempt [attempt_number] on, with [retries_left]
    more attempts allowed before [stop_after_attempt(3)] holds.  An
    exception the [retry] predicate rejects is re-raised as it is; when the
    stop condition holds, tenacity raises [RetryError]. *)
Fixpoint retry_call (retries_left : nat) (attempt_number : nat) : M json :=
  try_except (fetch_once attempt_number)
    (fun e =>
       if negb (is_request_exception e) then raise e
       else
         match retries_left with
         | O =>
             raise (Exn RetryError
                      ("RetryError[" +:+ future_repr w e +:+ "]"))
         | S k =>
             before_sleep attempt_number;;
             emit (Sleep (wait attempt_number));;
             retry_call k (S attempt_number)
         end).

Definition max_attempts : nat := 3.

Definition fetch_tickets : M json := retry_call (max_attempts - 1) 1.

(** *** [main] *)

Definition ticket_id_of (ticket : json) : outcome string :=
  match get ticket "idx" JNone with
  | Ok v => Ok (strip (str_ v))
  | Raise e => Raise e
  end.

(** The loop [for ticket in tickets], with the list built so far. *)
Fixpoint check_tickets (tickets : list json) (new_tickets : list json)
    : M (list json) :=
  match tickets with
  | [] => mret new_tickets
  | ticket :: rest =>
      ticket_id ← lift (ticket_id_of ticket);
      title ← lift (get ticket "title" JNone);
      let ticket_title := strip (str_ title) in
      if bool_decide (ticket_id ∈ KNOWN_TICKET_IDS w) then
        logger DEBUG
          ("Skipping known ticket: " +:+ ticket_title +:+ " (" +:+ ticket_id
             +:+ ")");;
        check_tickets rest new_tickets
      else
        logger INFO
          ("🆕 Found new ticket: " +:+ ticket_title +:+ " (" +:+ ticket_id
             +:+ ")");;
        check_tickets rest (new_tickets ++ [ticket])
  end.

Definition new_ticket_message (new_tickets : list json) : string :=
  pretty (length new_tickets) +:+ " 🆕 TICKETS".

(** Lines 174-183: SMS first, the webhook when the SMS raises. *)
Definition notify (new_tickets : list json) : M unit :=
  try_except (send_message (new_ticket_message new_tickets))
    (fun e =>
       logger ERROR
         ("Failed to send message: " +:+ exn_text e
            +:+ ". Trying to send webhook notification...");;
       try_except (send_webhook_notification new_tickets)
         (fun e =>
            logger ERROR
              ("Failed to send webhook notification: " +:+ exn_text e);;
            logger CRITICAL
              "Failed to send notification. Please check once.")).

(** Lines 144-183: what [main] does with a fetched response. *)
Definition process (response : json) : M unit :=
  status ← lift (get response "status" (JBool true));
  if is_False status then
    message ← lift (get response "message" JNone);
    logger ERROR ("Failed to fetch tickets: " +:+ str_ message);;
    send_message "FAILED"
  else
    children ← lift (get response "children" (JList []));
    tickets ← lift (iter children);
    new_tickets ← check_tickets tickets [];
    logger INFO
      ("Total tickets: " +:+ pretty (length tickets) +:+ ", New tickets: "
         +:+ pretty (length new_tickets));;
    if bool_decide (new_tickets = []) then
      logger INFO "No new tickets found"
    else notify new_tickets.

Definition main : M unit :=
  logger INFO "Checking for new match tickets...";;
  if STOP_EXECUTION w then
    logger INFO "STOP_EXECUTION is enabled. Skipping execution."
  else
    fetched ← attempt fetch_tickets;
    match fetched with
    | Raise e =>
        if is_request_exception e then
          logger ERROR
            ("Failed to fetch tickets after 3 attempts: " +:+ exn_text e);;
          send_message "FAILED"
        else
          logger ERROR
            ("Failed to fetch tickets after 3 attempts: " +:+ exn_text e);;
          send_message "FAILED"
    | Ok response => process response
    end.

End Script.

(** ** Reading a trace *)

(** Bodies handed to Twilio, in order. *)
Definition sms_bodies (tr : list event) : list string :=
  omap (fun ev => match ev with
                  | TwilioCreate _ _ body => Some body
                  | _ => None
                  end) tr.

(** Webhook deliveries, in order. *)
Definition posts (tr : list event) : list (string * json) :=
  omap (fun ev => match ev with
                  | HttpPost url payload => Some (url, payload)
                  | _ => None
                  end) tr.

(** Requests sent to the ticket endpoint. *)
Definition http_gets (tr : list event) : list (option string) :=
  omap (fun ev => match ev with
                  | HttpGet url => Some url
                  | _ => None
                  end) tr.

(** Pauses between attempts, in order. *)
Definition sleeps (tr : list event) : list Z :=
  omap (fun ev => match ev with
                  | Sleep s => Some s
                  | _ => None
                  end) tr.

(** A log line at [DEBUG] or [INFO] severity. *)
Definition is_progress_log (ev : event) : bool :=
  match ev with
  | Log DEBUG _ | Log INFO _ => true
  | _ => false
  end.

(** Neither a delivery on one of the two channels nor a critical log. *)
Definition calm (ev : event) : bool :=
  match ev with
  | TwilioCreate _ _ _ | HttpPost _ _ | Log CRITICAL _ => false
  | _ => true
  end.

Definition is_critical (ev : event) : bool :=
  match ev with
  | Log CRITICAL _ => true
  | _ => false
  end.

(** ** The vocabulary of the specification *)

(** A ticket record: a JSON object. *)
Abbreviation record := (list (string * json)).

(** The identity of a record: its [idx], stringified and trimmed. *)
Definition id_of (w : world) (t : record) : string :=
  strip (str_ w (dict_get t "idx" JNone)).

(** The specification's [diff(T, K)]: the records of [T] whose id is not in
    [K], in the order of [T]. *)
Definition diff (w : world) (K : gset string) (T : list record)
    : list record :=
  filter (fun t => id_of w t ∉ K) T.

(** [response.get("status", True) is False] *)
Definition status_is_false (response : record) : bool :=
  is_False (dict_get response "status" (JBool true)).

(** The run fetches a well-formed response whose ticket list is [T]: the
    script is not disabled, [fetch_tickets] returns a JSON object without
    [status: false], and its [children] is the list of records [T]. *)
Definition fetches (w : world) (T : list record) : Prop :=
  STOP_EXECUTION w = false ∧
  ∃ response : record,
    result (fetch_tickets w) = Ok (JDict response) ∧
    status_is_false response = false ∧
    dict_get response "children" (JList []) = JList (JDict <$> T).

(** The first three executions of the request all end in a
    [requests.RequestException]. *)
Definition fetch_exhausted (w : world) : Prop :=
  ∀ n : nat, (1 ≤ n ≤ 3)%nat →
    ∃ e, http_get w n = Raise e ∧ is_request_exception e = true.

(** The text posted to the webhook for the records [T]: a heading and one
    line per record with its title and id. *)
Definition webhook_line (w : world) (t : record) : string :=
  "• " +:+ str_ w (dict_get t "title" (JStr "Unknown")) +:+ " (ID: "
    +:+ str_ w (dict_get t "idx" (JStr "Unknown")) +:+ ")".

Definition webhook_message (w : world) (T : list record) : string :=
  join newline
    (("🎫 **New Match Tickets Available!**" +:+ newline)
       :: (webhook_line w <$> T)).

(** What one call of [send_message] leaves in the trace: in a dry run, and
    in a live run whose message Twilio accepts under the SID [sid]. *)
Definition dry_send (body : string) : list event :=
  [Log INFO
     "Debug mode is enabled. Skipping sending message and printing to console.";
   Log INFO ("Message: " +:+ body)].

Definition live_send (w : world) (sid body : string) : list event :=
  [Log INFO ("Sending message: " +:+ body +:+ " ...");
   TwilioCreate (TWILIO_TO_NUMBER w) (TWILIO_FROM_NUMBER w) body;
   Log INFO ("Message sent successfully (SID: " +:+ sid +:+ ")")].

(** The same world, run live, with Twilio accepting every message. *)
Definition delivering (sid : string) (w : world) : world :=
  {| TICKET_URL := TICKET_URL w;
     KNOWN_TICKET_IDS := KNOWN_TICKET_IDS w;
     TWILIO_FROM_NUMBER := TWILIO_FROM_NUMBER w;
     TWILIO_TO_NUMBER := TWILIO_TO_NUMBER w;
     DEBUG_MODE := false;
     STOP_EXECUTION := STOP_EXECUTION w;
     WEBHOOK_URL := WEBHOOK_URL w;
     http_get := http_get w;
     twilio_create := fun _ => Ok sid;
     http_post := http_post w;
     py_repr := py_repr w;
     future_repr := future_repr w |}.

(** The webhook is configured: [WEBHOOK_URL] is set and not empty. *)
Definition webhook_configured (w : world) (url : string) : Prop :=
  WEBHOOK_URL w = Some url ∧ url ≠ "".

(** [dry] is the dry run of [live]: both do the same calm things [pre] and
    end alike, and where the live run hands a body to Twilio (as its last
    act, the message being accepted under [sid]), the dry run logs that
    body instead. *)
Definition dry_run_of (w : world) (sid : string) (dry live : M unit)
    : Prop :=
  ∃ (pre : list event) (sent : option string),
    forallb calm pre = true
    ∧ trace dry = pre ++ from_option dry_send [] sent
    ∧ trace live = pre ++ from_option (live_send w sid) [] sent
    ∧ result live = result dry.

(** ** Scenarios *)

Definition ticket_A : record := [("idx", JStr "1"); ("title", JStr "A")].
Definition ticket_B : record := [("idx", JStr "2"); ("title", JStr "B")].

Definition listing (T : list record) : json :=
  JDict [("children", JList (JDict <$> T))].

Definition refusal : json :=
  JDict [("status", JBool false); ("message", JStr "maintenance")].

Definition network_down : exn := Exn RequestException "connection refused".
Definition twilio_down : exn := Exn OtherException "Unable to create record".
Definition bad_payload : exn := Exn OtherException "unexpected keyword".

(** The endpoint answers with [response] at the n-th request and fails
    with a request error before and after. *)
Definition answers_at (n : nat) (response : json) (k : nat) : outcome json :=
  if (k =? n)%nat then Ok response else Raise network_down.

Definition always {A B : Type} (o : outcome B) : A → outcome B := fun _ => o.

(** A run with known ids [{"1"}]. *)
Definition scenario (debug stop : bool) (webhook : option string)
    (endpoint : nat → outcome json) (twilio : outcome string)
    (hook : outcome unit) : world :=
  {| TICKET_URL := Some "https://tickets.example/api";
     KNOWN_TICKET_IDS := {["1"]};
     TWILIO_FROM_NUMBER := Some "+15550100";
     TWILIO_TO_NUMBER := Some "+15550101";
     DEBUG_MODE := debug;
     STOP_EXECUTION := stop;
     WEBHOOK_URL := webhook;
     http_get := endpoint;
     twilio_create := always twilio;
     http_post := fun _ => always hook;
     py_repr := fun _ => "";
     future_repr := fun _ => "<Future state=finished raised ConnectionError>" |}.

Definition generic_hook : option string := Some "https://hooks.example/notify".

(** Paused by the operator. *)
Definition w_disabled : world :=
  scenario false true generic_hook (answers_at 1 (listing [ticket_A; ticket_B]))
    (Ok "SM1") (Ok tt).

(** Two request errors, then the listing. *)
Definition w_flaky : world :=
  scenario false false generic_hook (answers_at 3 (listing [ticket_A]))
    (Ok "SM1") (Ok tt).

(** The endpoint never answers; Twilio works. *)
Definition w_endpoint_down : world :=
  scenario false false generic_hook (always (Raise network_down))
    (Ok "SM1") (Ok tt).

(** The endpoint never answers and Twilio rejects the message. *)
Definition w_all_down : world :=
  scenario false false generic_hook (always (Raise network_down))
    (Raise twilio_down) (Ok tt).

(** The endpoint answers [status: false] and Twilio rejects the message. *)
Definition w_refused_twilio_down : world :=
  scenario false false generic_hook (answers_at 1 refusal)
    (Raise twilio_down) (Ok tt).

(** The endpoint answers [status: false]; Twilio works. *)
Definition w_refused : world :=
  scenario false false generic_hook (answers_at 1 refusal) (Ok "SM1") (Ok tt).

(** Nothing new: the only ticket is known. *)
Definition w_nothing_new : world :=
  scenario false false generic_hook (answers_at 1 (listing [ticket_A]))
    (Ok "SM1") (Ok tt).

(** A new ticket, Twilio down, no webhook configured. *)
Definition w_no_hook : world :=
  scenario false false None (answers_at 1 (listing [ticket_A; ticket_B]))
    (Raise twilio_down) (Ok tt).

(** A new ticket, Twilio down, the webhook fails with a request error. *)
Definition w_hook_down : world :=
  scenario false false generic_hook
    (answers_at 1 (listing [ticket_A; ticket_B]))
    (Raise twilio_down) (Raise network_down).

(** A new ticket, Twilio down, the webhook call raises another error. *)
Definition w_hook_broken : world :=
  scenario false false generic_hook
    (answers_at 1 (listing [ticket_A; ticket_B]))
    (Raise twilio_down) (Raise bad_payload).

(** A new ticket, Twilio down, the webhook works. *)
Definition w_hook_up : world :=
  scenario false false generic_hook
    (answers_at 1 (listing [ticket_A; ticket_B]))
    (Raise twilio_down) (Ok tt).

(** A dry run that finds a new ticket. *)
Definition w_dry_run : world :=
  scenario true false generic_hook
    (answers_at 1 (listing [ticket_A; ticket_B]))
    (Raise twilio_down) (Raise network_down).

(** ** Configuration read from the environment (lines 18-35) *)

Module Env.

(** [s.split(sep)] for a one-character separator: the piece before the
    first separator, and the pieces after it. *)
Fixpoint split_go (sep : ascii) (s : string) : string * list string :=
  match s with
  | EmptyString => (EmptyString, [])
  | String c s' =>
      let '(piece, pieces) := split_go sep s' in
      if Ascii.eqb c sep then (EmptyString, piece :: pieces)
      else (String c piece, pieces)
  end.

Definition split (sep : ascii) (s : string) : list string :=
  let '(piece, pieces) := split_go sep s in piece :: pieces.

Definition comma : ascii := ascii_of_nat 44.

(** [{tid.strip() for tid in known_ids_str.split(",") if tid.strip()}],
    with [known_ids_str = os.getenv("KNOWN_TICKET_IDS", "")]. *)
Definition known_ticket_ids (getenv : option string) : gset string :=
  let known_ids_str := default "" getenv in
  list_to_set
    (filter (fun tid => tid ≠ "") (strip <$> split comma known_ids_str)).

(** [s.lower()] on the letters A-Z.  Other characters are left as they
    are: none of them lowers into a letter of "true", which is all the
    flags compare the result with. *)
Definition lower_letter (c : ascii) : ascii :=
  let n := N_of_ascii c in
  if ((65 <=? n) && (n <=? 90))%N then ascii_of_N (n + 32) else c.

Fixpoint lower (s : string) : string :=
  match s with
  | EmptyString => EmptyString
  | String c s' => String (lower_letter c) (lower s')
  end.

(** [os.getenv(NAME, "false").lower() == "true"] *)
Definition flag (getenv : option string) : bool :=
  String.eqb (lower (default "false" getenv)) "true".

End Env.

(** The world of a run started in the environment [getenv]. *)
Definition configure (getenv : string → option string)
    (endpoint : nat → outcome json) (twilio : string → outcome string)
    (hook : string → json → outcome unit) (repr : json → string)
    (future : exn → string) : world :=
  {| TICKET_URL := getenv "TICKET_URL";
     KNOWN_TICKET_IDS := Env.known_ticket_ids (getenv "KNOWN_TICKET_IDS");
     TWILIO_FROM_NUMBER := getenv "TWILIO_FROM_NUMBER";
     TWILIO_TO_NUMBER := getenv "TWILIO_TO_NUMBER";
     DEBUG_MODE := Env.flag (getenv "DEBUG_MODE");
     STOP_EXECUTION := Env.flag (getenv "STOP_EXECUTION");
     WEBHOOK_URL := getenv "WEBHOOK_URL";
     http_get := endpoint;
     twilio_create := twilio;
     http_post := hook;
     py_repr := repr;
     future_repr := future |}.

(** ** The stand-alone script [send_message_twilio.py] *)

Module Hello.

Inductive event : Type :=
| Create (to from_ : option string) (body : string)
| Print (line : string).

Definition send_message (w : world) (message : string)
    : list event * outcome unit :=
  match twilio_create w message with
  | Ok sid =>
      ([Create (TWILIO_TO_NUMBER w) (TWILIO_FROM_NUMBER w) message; Print sid],
       Ok tt)
  | Raise e =>
      ([Create (TWILIO_TO_NUMBER w) (TWILIO_FROM_NUMBER w) message], Raise e)
  end.

Definition main (w : world) : list event * outcome unit :=
  send_message w "Hello from Python!".

(** The messages handed to Twilio: recipient, sender, body. *)
Definition created (tr : list event)
    : list (option string * option string * string) :=
  omap (fun ev => match ev with
                  | Create to from_ body => Some (to, from_, body)
                  | Print _ => None
                  end) tr.

End Hello.

(** The messages the notifier hands to Twilio: recipient, sender, body. *)
Definition twilio_calls (tr : list event)
    : list (option string * option string * string) :=
  omap (fun ev => match ev with
                  | TwilioCreate to from_ body => Some (to, from_, body)
                  | _ => None
                  end) tr.

(** Log lines at a given severity. *)
Definition same_level (a b : level) : bool :=
  match a, b with
  | DEBUG, DEBUG | INFO, INFO | WARNING, WARNING | ERROR, ERROR
  | CRITICAL, CRITICAL => true
  | _, _ => false
  end.

Definition logged (lvl : level) (tr : list event) : list string :=
  omap (fun ev => match ev with
                  | Log l text => if same_level l lvl then Some text else None
                  | _ => None
                  end) tr.

(** The keys of a JSON object, in order. *)
Definition keys (v : json) : list string :=
  match v with
  | JDict d => fst <$> d
  | _ => []
  end.

Definition is_dict (v : json) : bool :=
  match v with
  | JDict _ => true
  | _ => false
  end.

(** An environment for the scenarios below. *)
Definition sample_env (name : string) : option string :=
  if String.eqb name "KNOWN_TICKET_IDS" then Some " 1, 7 ,,42 "
  else if String.eqb name "DEBUG_MODE" then Some "True"
  else if String.eqb name "TICKET_URL" then Some "https://tickets.example/api"
  else None.

Definition w_from_env : world :=
  configure sample_env (answers_at 1 (listing [ticket_A; ticket_B]))
    (always (Ok "SM1")) (fun _ => always (Ok tt)) (fun _ => "")
    (fun _ => "<Future>").

(** A new ticket and a working Twilio. *)
Definition w_sms_up : world :=
  scenario false false generic_hook
    (answers_at 1 (listing [ticket_A; ticket_B])) (Ok "SM1") (Ok tt).

(** The endpoint answers with a JSON array instead of an object. *)
Definition w_array_body : world :=
  scenario false false generic_hook (answers_at 1 (JList [JDict ticket_B]))
    (Ok "SM1") (Ok tt).

(** A listing whose second entry is a string, not an object. *)
Definition w_bad_entry : world :=
  scenario false false generic_hook
    (answers_at 1
       (JDict [("children", JList [JDict ticket_B; JStr "oops"])]))
    (Ok "SM1") (Ok tt).

(** A response without [children]. *)
Definition w_no_children : world :=
  scenario false false generic_hook (answers_at 1 (JDict [])) (Ok "SM1")
    (Ok tt).

(** The endpoint fails once with a request error, then with another
    error. *)
Definition broken_body : exn := Exn OtherException "bad gzip stream".

Definition w_fatal_second : world :=
  scenario false false generic_hook
    (fun n => if (n =? 2)%nat then Raise broken_body else Raise network_down)
    (Ok "SM1") (Ok tt).

(** What the notifying part of a run may leave in the trace: no request to
    the ticket endpoint, at most one message handed to Twilio, at most one
    post to the webhook, and a post only in a live run, to a configured
    webhook, after Twilio raised on the one message. *)
Definition fallback_discipline (w : world) (tr : list event) : Prop :=
  http_gets tr = []
  ∧ (length (sms_bodies tr) ≤ 1)%nat
  ∧ (length (posts tr) ≤ 1)%nat
  ∧ (posts tr ≠ [] →
     DEBUG_MODE w = false
     ∧ (∃ url, webhook_configured w url)
     ∧ ∃ body e, sms_bodies tr = [body] ∧ twilio_create w body = Raise e).

(** Nothing but log lines. *)
Definition only_logs (tr : list event) : Prop :=
  http_gets tr = [] ∧ sleeps tr = [] ∧ sms_bodies tr = [] ∧ posts tr = [].

(** An id that can be written into [KNOWN_TICKET_IDS] as it is: not empty,
    without a comma, without white space at either end. *)
Definition comma_free (s : string) : bool :=
  forallb (fun c => negb (Ascii.eqb c Env.comma)) (list_ascii_of_string s).

Definition plain_id (s : string) : Prop :=
  s ≠ "" ∧ comma_free s = true ∧ strip s = s.

(** ** The request behind [http_get] (lines 121-123) *)

(** What the endpoint sends back: a body that parses as JSON, or one that
    does not ([complaint] is the parser's message). *)
Inductive body : Type :=
| Json (v : json)
| NotJson (complaint : string).







(** The same world with other known ids. *)
Definition knowing (K : gset string) (w : world) : world :=
  {| TICKET_URL := TICKET_URL w;
     KNOWN_TICKET_IDS := K;
     TWILIO_FROM_NUMBER := TWILIO_FROM_NUMBER w;
     TWILIO_TO_NUMBER := TWILIO_TO_NUMBER w;
     DEBUG_MODE := DEBUG_MODE w;
     STOP_EXECUTION := STOP_EXECUTION w;
     WEBHOOK_URL := WEBHOOK_URL w;
     http_get := http_get w;
     twilio_create := twilio_create w;
     http_post := http_post w;
     py_repr := py_repr w;
     future_repr := future_repr w |}.

(** * Properties *)

(** ** How computations compose *)

Section Composition.

Context {A B : Type}.

Lemma bind_ok (t : list event) (a : A) (f : A → M B) :
  (t, Ok a) ≫= f = (t ++ trace (f a), result (f a)).
Proof. unfold mbind, M_bind, trace, result. by destruct (f a). Qed.

Lemma bind_raise (t : list event) (e : exn) (f : A → M B) :
  (t, Raise e) ≫= f = (t, Raise e).
Proof. done. Qed.

Lemma pure_bind (a : A) (f : A → M B) : ([], Ok a) ≫= f = f a.
Proof. unfold mbind, M_bind. by destruct (f a). Qed.

Lemma bind_eta (m : M A) (f : A → M B) :
  m ≫= f = (trace m, result m) ≫= f.
Proof. by destruct m. Qed.

Lemma try_except_ok (t : list event) (a : A) (h : exn → M A) :
  try_except (t, Ok a) h = (t, Ok a).
Proof. done. Qed.

Lemma try_except_raise (t : list event) (e : exn) (h : exn → M A) :
  try_except (t, Raise e) h = (t ++ trace (h e), result (h e)).
Proof. unfold try_except, trace, result. by destruct (h e). Qed.

End Composition.

Lemma emit_bind {B : Type} (ev : event) (f : unit → M B) :
  emit ev ≫= f = (ev :: trace (f tt), result (f tt)).
Proof. unfold emit. by rewrite bind_ok. Qed.

Lemma surjective_run {A : Type} (m : M A) : m = (trace m, result m).
Proof. by destruct m. Qed.

(** A calm stretch of a trace contributes nothing to what the channels
    saw. *)
Lemma calm_silent (tr : list event) :
  forallb calm tr = true →
  sms_bodies tr = [] ∧ posts tr = [] ∧ existsb is_critical tr = false.
Proof.
  induction tr as [|ev tr IH]; [done|]. simpl. intros [Hev Htr]%andb_prop.
  destruct (IH Htr) as (Hs & Hp & Hc). unfold sms_bodies, posts in *.
  simpl. rewrite Hs, Hp, Hc. by destruct ev as [[] ?| | | |].
Qed.

Lemma sms_bodies_app (tr1 tr2 : list event) :
  sms_bodies (tr1 ++ tr2) = sms_bodies tr1 ++ sms_bodies tr2.
Proof. apply omap_app. Qed.

Lemma posts_app (tr1 tr2 : list event) :
  posts (tr1 ++ tr2) = posts tr1 ++ posts tr2.
Proof. apply omap_app. Qed.

(** ** The diff step *)

Section Diff.

Variable w : world.

Let K := KNOWN_TICKET_IDS w.

Lemma ticket_id_of_record (t : record) :
  ticket_id_of w (JDict t) = Ok (id_of w t).
Proof. done. Qed.

Lemma check_tickets_cons (ticket : json) (rest acc : list json) :
  check_tickets w (ticket :: rest) acc =
    ticket_id ← lift (ticket_id_of w ticket);
    title ← lift (get ticket "title" JNone);
    if bool_decide (ticket_id ∈ KNOWN_TICKET_IDS w) then
      logger DEBUG
        ("Skipping known ticket: " +:+ strip (str_ w title) +:+ " ("
           +:+ ticket_id +:+ ")");;
      check_tickets w rest acc
    else
      logger INFO
        ("🆕 Found new ticket: " +:+ strip (str_ w title) +:+ " ("
           +:+ ticket_id +:+ ")");;
      check_tickets w rest (acc ++ [ticket]).
Proof. done. Qed.

(** Whatever the tickets are, the loop does nothing but log. *)
Lemma check_tickets_logs (tickets acc : list json) :
  forallb is_progress_log (trace (check_tickets w tickets acc)) = true.
Proof.
  revert acc. induction tickets as [|ticket rest IH]; intros acc; [done|].
  rewrite check_tickets_cons. unfold lift, logger.
  destruct (ticket_id_of w ticket) as [i|e]; [|done]. rewrite pure_bind.
  destruct (get ticket "title" JNone) as [title|e]; [|done].
  rewrite pure_bind.
  destruct (bool_decide (i ∈ KNOWN_TICKET_IDS w));
    rewrite emit_bind; simpl; apply IH.
Qed.

(** One pass of the loop over well-formed records extends the list built
    so far by the unknown records, in order. *)
Lemma check_tickets_records (T : list record) (acc : list json) :
  result (check_tickets w (JDict <$> T) acc)
    = Ok (acc ++ (JDict <$> diff w K T)).
Proof.
  revert acc. induction T as [|t T IH]; intros acc.
  - simpl. by rewrite app_nil_r.
  - unfold diff. rewrite fmap_cons, filter_cons, check_tickets_cons.
    rewrite ticket_id_of_record. unfold lift. rewrite pure_bind. simpl get.
    rewrite pure_bind. unfold logger.
    destruct (decide (id_of w t ∉ K)) as [Hnew|Hknown].
    + rewrite bool_decide_eq_false_2 by done.
      rewrite emit_bind. simpl result.
      by rewrite IH, fmap_cons, <- app_assoc.
    + rewrite bool_decide_eq_true_2 by (by apply dec_stable).
      rewrite emit_bind. simpl result. by rewrite IH.
Qed.

(** C1. Diff step: for every known-ID set [K] (the world's
    [KNOWN_TICKET_IDS]) and every fetched list [T] of ticket records, the
    loop of [main] returns normally with exactly the records of [T] whose
    id (the [idx] field, stringified and trimmed) is not in [K] -- the
    specification's [diff] -- in the order of [T]; the result is a sublist
    of [T], so every record comes out as it went in; the result is empty
    iff every id is in [K]; and the loop does nothing but log at [DEBUG]
    and [INFO] severity. *)
Theorem diff_step_correct (T : list record) :
  result (check_tickets w (JDict <$> T) [])
    = Ok (JDict <$> filter (fun t => id_of w t ∉ KNOWN_TICKET_IDS w) T)
  ∧ filter (fun t => id_of w t ∉ KNOWN_TICKET_IDS w) T `sublist_of` T
  ∧ (filter (fun t => id_of w t ∉ KNOWN_TICKET_IDS w) T = []
     ↔ ∀ t, t ∈ T → id_of w t ∈ KNOWN_TICKET_IDS w)
  ∧ forallb is_progress_log (trace (check_tickets w (JDict <$> T) []))
    = true.
Proof.
  split; [apply (check_tickets_records T [])|].
  split; [apply sublist_filter|]. split; [|apply check_tickets_logs].
  split.
  - intros Hnil t Hin. apply dec_stable. intros Hnot.
    by apply (filter_nil_not_elem_of _ _ t Hnil).
  - intros Hall. induction T as [|t T' IH]; [done|].
    rewrite filter_cons_False.
    + apply IH. intros t' Hin. apply Hall. by right.
    + intros Hnot. apply Hnot, Hall. by left.
Qed.

End Diff.

(** ** The disable flag *)

(** C8. Disable flag: with [STOP_EXECUTION] set, [main] returns at once
    after its two informational log lines: no request is sent to the
    ticket endpoint, no diff is computed (none of its log lines appears),
    and no notification of either kind is made. *)
Theorem disabled_run_does_nothing (w : world) :
  STOP_EXECUTION w = true →
  main w = ([Log INFO "Checking for new match tickets...";
             Log INFO "STOP_EXECUTION is enabled. Skipping execution."],
            Ok tt)
  ∧ http_gets (trace (main w)) = []
  ∧ sleeps (trace (main w)) = []
  ∧ sms_bodies (trace (main w)) = []
  ∧ posts (trace (main w)) = [].
Proof.
  intros Hstop. assert (Hmain : main w =
    ([Log INFO "Checking for new match tickets...";
      Log INFO "STOP_EXECUTION is enabled. Skipping execution."], Ok tt)).
  { unfold main, logger. by rewrite Hstop, emit_bind. }
  by rewrite Hmain.
Qed.

(** ** Fetching with retry *)

Section Fetch.

Variable w : world.

Lemma fetch_once_eq (n : nat) :
  fetch_once w n = ([HttpGet (TICKET_URL w)], http_get w n).
Proof. unfold fetch_once, lift. by rewrite emit_bind. Qed.

Lemma retry_call_eq (k n : nat) :
  retry_call w k n =
    try_except (fetch_once w n)
      (fun e =>
         if negb (is_request_exception e) then raise e
         else
           match k with
           | O =>
               raise (Exn RetryError
                        ("RetryError[" +:+ future_repr w e +:+ "]"))
           | S k' =>
               before_sleep n;;
               emit (Sleep (wait n));;
               retry_call w k' (S n)
           end).
Proof. by destruct k. Qed.

Lemma retry_call_ok (k n : nat) (response : json) :
  http_get w n = Ok response →
  retry_call w k n = ([HttpGet (TICKET_URL w)], Ok response).
Proof. intros H. by rewrite retry_call_eq, fetch_once_eq, H. Qed.

(** An exception that is not a [RequestException] is not retried. *)
Lemma retry_call_fatal (k n : nat) (e : exn) :
  http_get w n = Raise e → is_request_exception e = false →
  retry_call w k n = ([HttpGet (TICKET_URL w)], Raise e).
Proof.
  intros H He.
  by rewrite retry_call_eq, fetch_once_eq, H, try_except_raise, He.
Qed.

(** The stop condition: no attempt is left. *)
Lemma retry_call_stop (n : nat) (e : exn) :
  http_get w n = Raise e → is_request_exception e = true →
  retry_call w 0 n =
    ([HttpGet (TICKET_URL w)],
     Raise (Exn RetryError ("RetryError[" +:+ future_repr w e +:+ "]"))).
Proof.
  intros H He.
  by rewrite retry_call_eq, fetch_once_eq, H, try_except_raise, He.
Qed.

Lemma retry_call_again (k n : nat) (e : exn) :
  http_get w n = Raise e → is_request_exception e = true →
  retry_call w (S k) n =
    (HttpGet (TICKET_URL w)
       :: Log WARNING ("Request failed, retrying... (attempt " +:+ pretty n
                         +:+ "/3)")
       :: Sleep (wait n) :: trace (retry_call w k (S n)),
     result (retry_call w k (S n))).
Proof.
  intros H He.
  rewrite retry_call_eq, fetch_once_eq, H, try_except_raise, He.
  unfold before_sleep, logger. simpl negb. cbv iota.
  by rewrite !emit_bind.
Qed.

Lemma wait_formula (n : nat) :
  wait n = Z.max 2 (Z.min (2 ^ (Z.of_nat n - 1)) 10).
Proof.
  unfold wait, wait_exponential. rewrite Z.mul_1_l. done.
Qed.

Lemma wait_bounds (n : nat) : 2 ≤ wait n ≤ 10.
Proof. rewrite wait_formula. lia. Qed.

(** Whatever the endpoint does, the loop sends at most one request more
    than it has retries left, pauses between 2 and 10 seconds, and touches
    nothing but the endpoint, the clock and the log. *)
Lemma retry_call_bounded (k n : nat) :
  (length (http_gets (trace (retry_call w k n))) ≤ S k)%nat
  ∧ Forall (fun s => 2 ≤ s ≤ 10) (sleeps (trace (retry_call w k n)))
  ∧ forallb calm (trace (retry_call w k n)) = true.
Proof.
  revert n. induction k as [|k IH]; intros n.
  - destruct (http_get w n) as [r|e] eqn:H.
    { rewrite (retry_call_ok _ _ _ H). simpl. repeat split; auto; lia. }
    destruct (is_request_exception e) eqn:He.
    + rewrite (retry_call_stop _ _ H He). simpl. repeat split; auto; lia.
    + rewrite (retry_call_fatal _ _ _ H He). simpl. repeat split; auto; lia.
  - destruct (http_get w n) as [r|e] eqn:H.
    { rewrite (retry_call_ok _ _ _ H). simpl. repeat split; auto; lia. }
    destruct (is_request_exception e) eqn:He.
    + rewrite (retry_call_again _ _ _ H He).
      destruct (IH (S n)) as (Hg & Hs & Hc). simpl.
      split; [lia|]. split; [|done].
      constructor; [apply wait_bounds | exact Hs].
    + rewrite (retry_call_fatal _ _ _ H He). simpl. repeat split; auto; lia.
Qed.

End Fetch.

Lemma fetch_exhausted_raises (w : world) :
  fetch_exhausted w →
  ∃ e, result (fetch_tickets w) = Raise e
       ∧ exn_cls e = RetryError
       ∧ length (http_gets (trace (fetch_tickets w))) = 3%nat.
Proof.
  intros Hdown.
  destruct (Hdown 1%nat) as (e1 & H1 & He1); [lia|].
  destruct (Hdown 2%nat) as (e2 & H2 & He2); [lia|].
  destruct (Hdown 3%nat) as (e3 & H3 & He3); [lia|].
  exists (Exn RetryError ("RetryError[" +:+ future_repr w e3 +:+ "]")).
  unfold fetch_tickets, max_attempts. simpl Nat.sub.
  rewrite (retry_call_again _ _ _ _ H1 He1).
  rewrite (retry_call_again _ _ _ _ H2 He2).
  by rewrite (retry_call_stop _ _ _ H3 He3).
Qed.






(** ** The two notification channels *)

Section Channels.

Variable w : world.

Lemma send_message_dry (body : string) :
  DEBUG_MODE w = true → send_message w body = (dry_send body, Ok tt).
Proof. intros H. unfold send_message, logger. by rewrite H, emit_bind. Qed.

Lemma send_message_delivered (body sid : string) :
  DEBUG_MODE w = false → twilio_create w body = Ok sid →
  send_message w body = (live_send w sid body, Ok tt).
Proof.
  intros H Hsid. unfold send_message, logger, lift.
  by rewrite H, !emit_bind, Hsid, pure_bind.
Qed.

Lemma send_message_raises (body : string) (e : exn) :
  DEBUG_MODE w = false → twilio_create w body = Raise e →
  send_message w body =
    ([Log INFO ("Sending message: " +:+ body +:+ " ...");
      TwilioCreate (TWILIO_TO_NUMBER w) (TWILIO_FROM_NUMBER w) body],
     Raise e).
Proof.
  intros H He. unfold send_message, logger, lift.
  by rewrite H, !emit_bind, He, bind_raise.
Qed.

(** One call of [send_message] hands at most its own body to Twilio, and
    never touches the webhook. *)
Lemma send_message_effects (body : string) :
  sms_bodies (trace (send_message w body))
    = (if DEBUG_MODE w then [] else [body])
  ∧ posts (trace (send_message w body)) = []
  ∧ existsb is_critical (trace (send_message w body)) = false.
Proof.
  destruct (DEBUG_MODE w) eqn:H.
  - by rewrite send_message_dry.
  - destruct (twilio_create w body) as [sid|e] eqn:Hc.
    + by rewrite (send_message_delivered _ sid).
    + by rewrite (send_message_raises _ e).
Qed.

Lemma send_message_result (body : string) :
  result (send_message w body) =
    if DEBUG_MODE w then Ok tt
    else match twilio_create w body with
         | Ok _ => Ok tt
         | Raise e => Raise e
         end.
Proof.
  destruct (DEBUG_MODE w) eqn:H.
  - by rewrite send_message_dry.
  - destruct (twilio_create w body) as [sid|e] eqn:Hc.
    + by rewrite (send_message_delivered _ sid).
    + by rewrite (send_message_raises _ e).
Qed.

Lemma send_webhook_unset (new_tickets : list json) :
  WEBHOOK_URL w = None ∨ WEBHOOK_URL w = Some "" →
  send_webhook_notification w new_tickets =
    ([Log WARNING "WEBHOOK_URL not set, skipping notification"], Ok tt).
Proof. unfold send_webhook_notification. by intros [-> | ->]. Qed.

Lemma ticket_lines_records (T : list record) (acc : list string) :
  ticket_lines w (JDict <$> T) acc = ([], Ok (acc ++ (webhook_line w <$> T))).
Proof.
  revert acc. induction T as [|t T IH]; intros acc.
  - simpl. by rewrite app_nil_r.
  - rewrite !fmap_cons. cbn [ticket_lines]. simpl get. unfold lift.
    rewrite !pure_bind, IH, <- app_assoc. done.
Qed.

(** With a webhook configured, the records are rendered and posted once;
    a request error is logged inside the function, any other exception
    leaves it. *)
Lemma send_webhook_configured (url : string) (T : list record) :
  webhook_configured w url →
  let payload := webhook_payload url (webhook_message w T) (JDict <$> T) in
  send_webhook_notification w (JDict <$> T) =
    match http_post w url payload with
    | Ok _ =>
        ([HttpPost url payload;
          Log INFO "Webhook notification sent successfully"], Ok tt)
    | Raise e =>
        if is_request_exception e then
          ([HttpPost url payload;
            Log ERROR ("Failed to send webhook notification: " +:+ exn_text e)],
           Ok tt)
        else ([HttpPost url payload], Raise e)
    end.
Proof.
  intros [Hurl Hne] payload. unfold send_webhook_notification.
  rewrite Hurl. destruct url as [|c url]; [done|].
  rewrite ticket_lines_records, pure_bind.
  unfold payload, webhook_message, lift, logger. simpl app.
  rewrite emit_bind.
  destruct (http_post w (String c url) _) as [[]|e].
  - rewrite pure_bind. done.
  - rewrite bind_raise. simpl trace. simpl result.
    rewrite try_except_raise. by destruct (is_request_exception e).
Qed.

(** Whatever the two channels do, [notify] returns normally. *)
Lemma notify_returns (new_tickets : list json) :
  result (notify w new_tickets) = Ok tt.
Proof.
  unfold notify.
  destruct (send_message w (new_ticket_message new_tickets)) as [t [[]|e]].
  - done.
  - rewrite try_except_raise. unfold logger.
    rewrite (emit_bind (B:=unit)).
    simpl result.
    destruct (send_webhook_notification w new_tickets) as [t' [[]|e']].
    + done.
    + by rewrite try_except_raise.
Qed.

(** When the SMS goes through (or the run is dry), [notify] is that one
    call of [send_message]. *)
Lemma notify_sent (new_tickets : list json) :
  result (send_message w (new_ticket_message new_tickets)) = Ok tt →
  notify w new_tickets = send_message w (new_ticket_message new_tickets).
Proof.
  unfold notify.
  destruct (send_message w (new_ticket_message new_tickets)) as [t [[]|e]];
    by intros.
Qed.

(** When Twilio raises, [notify] logs the error and calls the webhook
    function, logging at critical severity when that call raises. *)
Lemma notify_fallback (new_tickets : list json) (e : exn) :
  DEBUG_MODE w = false →
  twilio_create w (new_ticket_message new_tickets) = Raise e →
  trace (notify w new_tickets) =
    [Log INFO ("Sending message: " +:+ new_ticket_message new_tickets
                 +:+ " ...");
     TwilioCreate (TWILIO_TO_NUMBER w) (TWILIO_FROM_NUMBER w)
       (new_ticket_message new_tickets);
     Log ERROR ("Failed to send message: " +:+ exn_text e
                  +:+ ". Trying to send webhook notification...")]
    ++ trace (send_webhook_notification w new_tickets)
    ++ match result (send_webhook_notification w new_tickets) with
       | Ok _ => []
       | Raise e' =>
           [Log ERROR ("Failed to send webhook notification: "
                         +:+ exn_text e');
            Log CRITICAL "Failed to send notification. Please check once."]
       end.
Proof.
  intros Hlive He. unfold notify.
  rewrite (send_message_raises _ _ Hlive He), try_except_raise.
  unfold logger. rewrite (emit_bind (B:=unit)). simpl trace.
  destruct (send_webhook_notification w new_tickets) as [t' [[]|e']].
  - simpl. by rewrite app_nil_r.
  - by rewrite try_except_raise.
Qed.

End Channels.

(** ** The paths through [main] *)

Section Paths.

Variable w : world.

Let checking : event := Log INFO "Checking for new match tickets...".

Lemma main_fetch_failed (e : exn) :
  STOP_EXECUTION w = false → result (fetch_tickets w) = Raise e →
  main w =
    (checking :: trace (fetch_tickets w)
       ++ Log ERROR ("Failed to fetch tickets after 3 attempts: "
                       +:+ exn_text e)
       :: trace (send_message w "FAILED"),
     result (send_message w "FAILED")).
Proof.
  intros Hstop Hf. unfold main, logger, attempt.
  rewrite Hstop, (emit_bind (B:=unit)), Hf, bind_ok.
  by destruct (is_request_exception e); rewrite (emit_bind (B:=unit)).
Qed.

Lemma main_fetched (response : json) :
  STOP_EXECUTION w = false → result (fetch_tickets w) = Ok response →
  main w =
    (checking :: trace (fetch_tickets w) ++ trace (process w response),
     result (process w response)).
Proof.
  intros Hstop Hf. unfold main, logger, attempt.
  by rewrite Hstop, (emit_bind (B:=unit)), Hf, bind_ok.
Qed.

(** A response with [status: false] is handled like a failed fetch. *)
Lemma process_refused (response : record) :
  status_is_false response = true →
  process w (JDict response) =
    (Log ERROR ("Failed to fetch tickets: "
                  +:+ str_ w (dict_get response "message" JNone))
       :: trace (send_message w "FAILED"),
     result (send_message w "FAILED")).
Proof.
  unfold status_is_false, process, lift, logger. simpl get.
  rewrite pure_bind. intros ->.
  by rewrite pure_bind, (emit_bind (B:=unit)).
Qed.

(** A well-formed listing is diffed, and the new tickets, if any, are
    handed to [notify]. *)
Lemma process_listing (response : record) (T : list record) :
  status_is_false response = false →
  dict_get response "children" (JList []) = JList (JDict <$> T) →
  let new_tickets := JDict <$> diff w (KNOWN_TICKET_IDS w) T in
  let rest :=
    if bool_decide (new_tickets = []) then logger INFO "No new tickets found"
    else notify w new_tickets in
  process w (JDict response) =
    (trace (check_tickets w (JDict <$> T) [])
       ++ Log INFO ("Total tickets: " +:+ pretty (length (JDict <$> T))
                      +:+ ", New tickets: " +:+ pretty (length new_tickets))
       :: trace rest,
     result rest).
Proof.
  intros Hstatus Hchildren new_tickets rest.
  assert (Hgo : process w (JDict response) =
    (new_tickets ← check_tickets w (JDict <$> T) [];
     logger INFO
       ("Total tickets: " +:+ pretty (length (JDict <$> T))
          +:+ ", New tickets: " +:+ pretty (length new_tickets));;
     if bool_decide (new_tickets = []) then
       logger INFO "No new tickets found"
     else notify w new_tickets)).
  { unfold status_is_false in Hstatus. unfold process, lift. simpl get.
    rewrite pure_bind, Hstatus, pure_bind, Hchildren. simpl iter.
    by rewrite pure_bind. }
  rewrite Hgo, bind_eta, check_tickets_records, bind_ok.
  unfold logger. by rewrite (emit_bind (B:=unit)).
Qed.

Lemma main_listing (T : list record) :
  fetches w T →
  let new_tickets := JDict <$> diff w (KNOWN_TICKET_IDS w) T in
  let rest :=
    if bool_decide (new_tickets = []) then logger INFO "No new tickets found"
    else notify w new_tickets in
  main w =
    (checking :: trace (fetch_tickets w)
       ++ trace (check_tickets w (JDict <$> T) [])
       ++ Log INFO ("Total tickets: " +:+ pretty (length (JDict <$> T))
                      +:+ ", New tickets: " +:+ pretty (length new_tickets))
       :: trace rest,
     result rest).
Proof.
  intros (Hstop & response & Hf & Hstatus & Hchildren) new_tickets rest.
  rewrite (main_fetched _ Hstop Hf).
  by rewrite (process_listing _ _ Hstatus Hchildren).
Qed.

(** Before any notification, a run is calm. *)
Lemma fetch_calm : forallb calm (trace (fetch_tickets w)) = true.
Proof. apply (retry_call_bounded w 2 1). Qed.

Lemma check_tickets_calm (tickets acc : list json) :
  forallb calm (trace (check_tickets w tickets acc)) = true.
Proof.
  pose proof (check_tickets_logs w tickets acc) as H.
  rewrite forallb_forall in *. intros ev Hev. specialize (H ev Hev).
  by destruct ev as [[] ?| | | |].
Qed.

End Paths.

(** ** Fetch failure *)

(** C2, as amended.  When the request fails on all three attempts, [main]
    logs the error and calls [send_message] exactly once, with the fixed
    body "FAILED": Twilio is handed that one body (in a dry run the body is
    logged instead), the webhook is never used, and [main] returns once
    that call has not raised. *)
Theorem exhausted_fetch_sends_failed (w : world) :
  STOP_EXECUTION w = false → fetch_exhausted w →
  ∃ e,
    result (fetch_tickets w) = Raise e
    ∧ length (http_gets (trace (fetch_tickets w))) = 3%nat
    ∧ main w =
        (Log INFO "Checking for new match tickets..."
           :: trace (fetch_tickets w)
           ++ Log ERROR ("Failed to fetch tickets after 3 attempts: "
                           +:+ exn_text e)
           :: trace (send_message w "FAILED"),
         result (send_message w "FAILED"))
    ∧ sms_bodies (trace (main w)) = (if DEBUG_MODE w then [] else ["FAILED"])
    ∧ posts (trace (main w)) = []
    ∧ (DEBUG_MODE w = true ∨ (∃ sid, twilio_create w "FAILED" = Ok sid) →
       result (main w) = Ok tt).
Proof.
  intros Hstop Hdown.
  destruct (fetch_exhausted_raises w Hdown) as (e & Hf & _ & Hgets).
  exists e. split; [exact Hf|]. split; [exact Hgets|].
  pose proof (main_fetch_failed w e Hstop Hf) as Hmain.
  split; [exact Hmain|]. rewrite Hmain. simpl trace. simpl result.
  destruct (calm_silent _ (fetch_calm w)) as (Hs & Hp & _).
  destruct (send_message_effects w "FAILED") as (Hs' & Hp' & _).
  change (sms_bodies (?a :: ?l)) with (sms_bodies ([a] ++ l)).
  change (posts (?a :: ?l)) with (posts ([a] ++ l)).
  rewrite !sms_bodies_app, !posts_app, Hs, Hp.
  change (sms_bodies (?a :: ?l)) with (sms_bodies ([a] ++ l)).
  change (posts (?a :: ?l)) with (posts ([a] ++ l)).
  rewrite !sms_bodies_app, !posts_app, Hs', Hp'.
  split; [done|]. split; [done|].
  rewrite send_message_result. intros [-> | [sid ->]]; [done|].
  by destruct (DEBUG_MODE w).
Qed.

Lemma exhausted_fetch_sends_failed_witness :
  sms_bodies (trace (main w_endpoint_down)) = ["FAILED"]
  ∧ posts (trace (main w_endpoint_down)) = []
  ∧ result (main w_endpoint_down) = Ok tt.
Proof.
  assert (Hdown : fetch_exhausted w_endpoint_down).
  { intros n _. exists network_down. split; reflexivity. }
  destruct (exhausted_fetch_sends_failed w_endpoint_down eq_refl Hdown)
    as (e & _ & _ & _ & Hs & Hp & Hr).
  split; [exact Hs|]. split; [exact Hp|].
  apply Hr. right. exists "SM1". reflexivity.
Defined.

(** C2 as the specification words it has the body read "FETCH FAILED". *)
Lemma failure_body_is_not_fetch_failed :
  STOP_EXECUTION w_endpoint_down = false
  ∧ fetch_exhausted w_endpoint_down
  ∧ sms_bodies (trace (main w_endpoint_down)) = ["FAILED"]
  ∧ sms_bodies (trace (main w_endpoint_down)) ≠ ["FETCH FAILED"].
Proof.
  split; [reflexivity|]. split.
  { intros n _. exists network_down. split; reflexivity. }
  split; [reflexivity|]. vm_compute. discriminate.
Qed.

(** ** No new tickets *)

Lemma diff_nil_of_known (w : world) (K : gset string) (T : list record) :
  (∀ t, t ∈ T → id_of w t ∈ K) → diff w K T = [].
Proof.
  intros Hall. unfold diff. induction T as [|t T IH]; [done|].
  rewrite filter_cons_False.
  - apply IH. intros t' Hin. apply Hall. by right.
  - intros Hnot. apply Hnot, Hall. by left.
Qed.

(** C9. No new tickets: when the run fetches a listing [T] all of whose ids
    are known, [main] returns normally after logging the totals and "No new
    tickets found"; [send_message] and the webhook are never called, so
    nothing is handed to Twilio and nothing is posted. *)
Theorem nothing_new_sends_nothing (w : world) (T : list record) :
  fetches w T →
  (∀ t, t ∈ T → id_of w t ∈ KNOWN_TICKET_IDS w) →
  result (main w) = Ok tt
  ∧ sms_bodies (trace (main w)) = []
  ∧ posts (trace (main w)) = []
  ∧ trace (main w) =
      Log INFO "Checking for new match tickets..."
        :: trace (fetch_tickets w)
        ++ trace (check_tickets w (JDict <$> T) [])
        ++ [Log INFO ("Total tickets: " +:+ pretty (length T)
                        +:+ ", New tickets: 0");
            Log INFO "No new tickets found"].
Proof.
  intros Hfetch Hknown.
  assert (Hdiff : diff w (KNOWN_TICKET_IDS w) T = []).
  { by apply diff_nil_of_known. }
  pose proof (main_listing w T Hfetch) as Hmain. cbv zeta in Hmain.
  rewrite Hdiff in Hmain. simpl in Hmain. rewrite length_fmap in Hmain.
  assert (Htrace : trace (main w) =
      Log INFO "Checking for new match tickets..."
        :: trace (fetch_tickets w)
        ++ trace (check_tickets w (JDict <$> T) [])
        ++ [Log INFO ("Total tickets: " +:+ pretty (length T)
                        +:+ ", New tickets: 0");
            Log INFO "No new tickets found"]) by by rewrite Hmain.
  split; [by rewrite Hmain|]. rewrite Htrace.
  destruct (calm_silent _ (fetch_calm w)) as (Hs & Hp & _).
  destruct (calm_silent _ (check_tickets_calm w (JDict <$> T) []))
    as (Hs' & Hp' & _).
  change (sms_bodies (?a :: ?l)) with (sms_bodies ([a] ++ l)).
  change (posts (?a :: ?l)) with (posts ([a] ++ l)).
  by rewrite !sms_bodies_app, !posts_app, Hs, Hp, Hs', Hp'.
Qed.

(** The scenario of the specification: [T = [{idx: "1", title: "A"}]] and
    [K = {"1"}]. *)
Lemma nothing_new_sends_nothing_witness :
  KNOWN_TICKET_IDS w_nothing_new = {["1"]}
  ∧ result (main w_nothing_new) = Ok tt
  ∧ sms_bodies (trace (main w_nothing_new)) = []
  ∧ posts (trace (main w_nothing_new)) = [].
Proof.
  assert (Hfetch : fetches w_nothing_new [ticket_A]).
  { split; [reflexivity|].
    exists [("children", JList [JDict ticket_A])].
    split; [reflexivity|]. split; reflexivity. }
  assert (Hknown : ∀ t, t ∈ [ticket_A] →
                        id_of w_nothing_new t ∈ KNOWN_TICKET_IDS w_nothing_new).
  { intros t ->%list_elem_of_singleton. vm_compute. reflexivity. }
  destruct (nothing_new_sends_nothing w_nothing_new [ticket_A] Hfetch Hknown)
    as (Hr & Hs & Hp & _).
  split; [reflexivity|]. split; [exact Hr|]. split; [exact Hs | exact Hp].
Defined.

(** ** New tickets *)

Section NewTickets.

Variable w : world.
Variable T : list record.

Let new_tickets : list json := JDict <$> diff w (KNOWN_TICKET_IDS w) T.

(** With new tickets, a run is a calm stretch followed by [notify]. *)
Lemma main_notifies :
  fetches w T → diff w (KNOWN_TICKET_IDS w) T ≠ [] →
  ∃ pre, forallb calm pre = true
         ∧ main w = (pre ++ trace (notify w new_tickets),
                     result (notify w new_tickets)).
Proof.
  intros Hfetch Hnew. pose proof (main_listing w T Hfetch) as Hmain.
  cbv zeta in Hmain. fold new_tickets in Hmain.
  rewrite bool_decide_eq_false_2 in Hmain
    by (intros H%fmap_nil_inv; contradiction).
  eexists (Log INFO "Checking for new match tickets..."
             :: trace (fetch_tickets w)
             ++ trace (check_tickets w (JDict <$> T) []) ++ [Log INFO _]).
  split.
  - simpl. rewrite !forallb_app, fetch_calm, check_tickets_calm. done.
  - rewrite Hmain. simpl. by rewrite <- !app_assoc.
Qed.

Lemma main_notifies_effects :
  fetches w T → diff w (KNOWN_TICKET_IDS w) T ≠ [] →
  result (main w) = Ok tt
  ∧ sms_bodies (trace (main w)) = sms_bodies (trace (notify w new_tickets))
  ∧ posts (trace (main w)) = posts (trace (notify w new_tickets))
  ∧ existsb is_critical (trace (main w))
    = existsb is_critical (trace (notify w new_tickets)).
Proof.
  intros Hfetch Hnew.
  destruct (main_notifies Hfetch Hnew) as (pre & Hcalm & ->).
  destruct (calm_silent _ Hcalm) as (Hs & Hp & Hc). simpl.
  by rewrite notify_returns, sms_bodies_app, posts_app, existsb_app, Hs, Hp, Hc.
Qed.

End NewTickets.

(** C10. Unconfigured webhook: with [WEBHOOK_URL] unset or empty,
    [send_webhook_notification] logs one warning and returns normally
    without posting anything.  So a live run that finds new tickets and
    whose SMS raises hands that one message to Twilio, posts nothing, logs
    the SMS error and the warning, logs nothing at critical severity, and
    returns normally. *)
Theorem unset_webhook_is_skipped (w : world) :
  WEBHOOK_URL w = None ∨ WEBHOOK_URL w = Some "" →
  (∀ new_tickets,
     send_webhook_notification w new_tickets =
       ([Log WARNING "WEBHOOK_URL not set, skipping notification"], Ok tt))
  ∧ (∀ (T : list record) (e : exn),
       let new_tickets := JDict <$> diff w (KNOWN_TICKET_IDS w) T in
       fetches w T → diff w (KNOWN_TICKET_IDS w) T ≠ [] →
       DEBUG_MODE w = false →
       twilio_create w (new_ticket_message new_tickets) = Raise e →
       result (main w) = Ok tt
       ∧ sms_bodies (trace (main w)) = [new_ticket_message new_tickets]
       ∧ posts (trace (main w)) = []
       ∧ existsb is_critical (trace (main w)) = false
       ∧ ∃ pre, trace (main w) =
           pre ++ [Log ERROR ("Failed to send message: " +:+ exn_text e
                     +:+ ". Trying to send webhook notification...");
                   Log WARNING "WEBHOOK_URL not set, skipping notification"]).
Proof.
  intros Hunset. split; [intros; by apply send_webhook_unset|].
  intros T e new_tickets Hfetch Hnew Hlive Hsms.
  pose proof (notify_fallback w new_tickets e Hlive Hsms) as Hnotify.
  rewrite (send_webhook_unset w new_tickets Hunset) in Hnotify.
  simpl in Hnotify.
  destruct (main_notifies_effects w T Hfetch Hnew) as (Hr & Hs & Hp & Hc).
  fold new_tickets in Hs, Hp, Hc.
  rewrite Hr, Hs, Hp, Hc, Hnotify. repeat (split; [done|]).
  destruct (main_notifies w T Hfetch Hnew) as (pre & _ & ->).
  fold new_tickets. simpl trace. rewrite Hnotify.
  eexists (pre ++ [_; _]). by rewrite <- app_assoc.
Qed.

Lemma unset_webhook_is_skipped_witness :
  result (main w_no_hook) = Ok tt
  ∧ sms_bodies (trace (main w_no_hook)) = ["1 🆕 TICKETS"]
  ∧ posts (trace (main w_no_hook)) = []
  ∧ existsb is_critical (trace (main w_no_hook)) = false.
Proof.
  assert (Hfetch : fetches w_no_hook [ticket_A; ticket_B]).
  { split; [reflexivity|].
    exists [("children", JList [JDict ticket_A; JDict ticket_B])].
    split; [reflexivity|]. split; reflexivity. }
  destruct (unset_webhook_is_skipped w_no_hook (or_introl eq_refl))
    as [_ Hrun].
  destruct (Hrun [ticket_A; ticket_B] twilio_down Hfetch)
    as (Hr & Hs & Hp & Hc & _).
  - vm_compute. discriminate.
  - reflexivity.
  - reflexivity.
  - split; [exact Hr|]. split; [exact Hs|]. split; [exact Hp | exact Hc].
Defined.

(** ** Fallback to the webhook *)

(** C5, as amended.  In a live run that finds new tickets and whose SMS
    raises, [main] hands that one message to Twilio, calls
    [send_webhook_notification] with the full list of new tickets, and
    returns normally.  When no webhook is configured nothing is posted.
    When one is, exactly one request is posted to it: its message has one
    line per new ticket, and its payload carries the list itself in the
    generic format (the Discord and Slack formats carry the message only).
    A critical log is written when the webhook call raises an exception
    other than a request error.  Nothing is retried and no third channel
    is tried. *)
Theorem sms_failure_falls_back_to_webhook (w : world) (T : list record)
    (e : exn) :
  let new := diff w (KNOWN_TICKET_IDS w) T in
  let new_tickets := JDict <$> new in
  fetches w T → new ≠ [] → DEBUG_MODE w = false →
  twilio_create w (new_ticket_message new_tickets) = Raise e →
  result (main w) = Ok tt
  ∧ sms_bodies (trace (main w)) = [new_ticket_message new_tickets]
  ∧ (WEBHOOK_URL w = None ∨ WEBHOOK_URL w = Some "" →
     posts (trace (main w)) = [])
  ∧ (∀ url, webhook_configured w url →
       let payload := webhook_payload url (webhook_message w new) new_tickets in
       posts (trace (main w)) = [(url, payload)]
       ∧ (contains "discord.com" url = false →
          contains "slack.com" url = false →
          payload = JDict [("message", JStr (webhook_message w new));
                           ("tickets", JList new_tickets)])
       ∧ (∀ e', http_post w url payload = Raise e' →
                is_request_exception e' = false →
                existsb is_critical (trace (main w)) = true)).
Proof.
  intros new new_tickets Hfetch Hnew Hlive Hsms.
  pose proof (notify_fallback w new_tickets e Hlive Hsms) as Hnotify.
  destruct (main_notifies_effects w T Hfetch Hnew) as (Hr & Hs & Hp & Hc).
  fold new new_tickets in Hs, Hp, Hc. rewrite Hs, Hp, Hc, Hnotify.
  split; [exact Hr|]. split.
  { change (?a :: ?b :: ?c :: ?l) with ([a; b; c] ++ l).
    rewrite !sms_bodies_app.
    destruct (WEBHOOK_URL w) as [[|c url]|] eqn:Hurl.
    - by rewrite send_webhook_unset by auto.
    - unfold new_tickets.
      rewrite (send_webhook_configured w (String c url)) by done.
      destruct (http_post w _ _) as [[]|e']; [done|].
      by destruct (is_request_exception e').
    - by rewrite send_webhook_unset by auto. }
  split.
  { intros Hunset. by rewrite (send_webhook_unset w new_tickets Hunset). }
  intros url Hurl payload. unfold new_tickets.
  rewrite (send_webhook_configured w url new Hurl). fold new_tickets payload.
  split; [|split].
  - destruct (http_post w url payload) as [[]|e']; [done|].
    by destruct (is_request_exception e').
  - intros Hd Hs'. unfold payload, webhook_payload. by rewrite Hd, Hs'.
  - intros e' -> ->. done.
Qed.

Lemma sms_failure_falls_back_to_webhook_witness :
  result (main w_hook_up) = Ok tt
  ∧ sms_bodies (trace (main w_hook_up)) = ["1 🆕 TICKETS"]
  ∧ posts (trace (main w_hook_up)) =
      [("https://hooks.example/notify",
        JDict [("message", JStr (webhook_message w_hook_up [ticket_B]));
               ("tickets", JList [JDict ticket_B])])].
Proof.
  assert (Hfetch : fetches w_hook_up [ticket_A; ticket_B]).
  { split; [reflexivity|].
    exists [("children", JList [JDict ticket_A; JDict ticket_B])].
    split; [reflexivity|]. split; reflexivity. }
  destruct (sms_failure_falls_back_to_webhook w_hook_up [ticket_A; ticket_B]
              twilio_down Hfetch) as (Hr & Hs & _ & Hposted).
  - vm_compute. discriminate.
  - reflexivity.
  - reflexivity.
  - destruct (Hposted "https://hooks.example/notify") as (Hp & _).
    { split; [reflexivity | discriminate]. }
    split; [exact Hr|]. split; [exact Hs | exact Hp].
Defined.

(** C5 as the specification words it has the webhook attempted whenever
    the SMS raises, and a critical log written whenever the webhook fails
    too.  Without a
    configured webhook nothing is posted; and when the post fails with a
    request error the function logs it at [ERROR] severity itself, so the
    critical log of [main] is not written. *)
Lemma fallback_without_post_or_critical_log :
  (twilio_create w_no_hook "1 🆕 TICKETS" = Raise twilio_down
   ∧ sms_bodies (trace (main w_no_hook)) = ["1 🆕 TICKETS"]
   ∧ posts (trace (main w_no_hook)) = [])
  ∧ (twilio_create w_hook_down "1 🆕 TICKETS" = Raise twilio_down
     ∧ length (posts (trace (main w_hook_down))) = 1%nat
     ∧ (∀ url payload, http_post w_hook_down url payload = Raise network_down)
     ∧ existsb is_critical (trace (main w_hook_down)) = false).
Proof. repeat split; vm_compute; reflexivity. Qed.

(** ** Dry runs *)

Lemma main_stopped (v : world) :
  STOP_EXECUTION v = true →
  main v = ([Log INFO "Checking for new match tickets...";
             Log INFO "STOP_EXECUTION is enabled. Skipping execution."],
            Ok tt).
Proof. intros H. unfold main, logger. by rewrite H, emit_bind. Qed.

(** [process], path by path, in any world. *)
Lemma process_paths (v : world) (response : json) :
  process v response =
    match get response "status" (JBool true) with
    | Raise e => ([], Raise e)
    | Ok status =>
        if is_False status then
          match get response "message" JNone with
          | Raise e => ([], Raise e)
          | Ok message =>
              (Log ERROR ("Failed to fetch tickets: " +:+ str_ v message)
                 :: trace (send_message v "FAILED"),
               result (send_message v "FAILED"))
          end
        else
          match get response "children" (JList []) with
          | Raise e => ([], Raise e)
          | Ok children =>
              match iter children with
              | Raise e => ([], Raise e)
              | Ok tickets =>
                  match result (check_tickets v tickets []) with
                  | Raise e => (trace (check_tickets v tickets []), Raise e)
                  | Ok new_tickets =>
                      let rest :=
                        if bool_decide (new_tickets = []) then
                          logger INFO "No new tickets found"
                        else notify v new_tickets in
                      (trace (check_tickets v tickets [])
                         ++ Log INFO
                              ("Total tickets: " +:+ pretty (length tickets)
                                 +:+ ", New tickets: "
                                 +:+ pretty (length new_tickets))
                         :: trace rest,
                       result rest)
                  end
              end
          end
    end.
Proof.
  unfold process, lift, logger.
  destruct (get response "status" (JBool true)) as [status|e]; [|done].
  rewrite pure_bind. destruct (is_False status).
  - destruct (get response "message" JNone) as [message|e]; [|done].
    by rewrite pure_bind, (emit_bind (B:=unit)).
  - destruct (get response "children" (JList [])) as [children|e]; [|done].
    rewrite pure_bind. destruct (iter children) as [tickets|e]; [|done].
    rewrite pure_bind, bind_eta.
    destruct (result (check_tickets v tickets [])) as [new_tickets|e];
      [|done].
    by rewrite bind_ok, (emit_bind (B:=unit)).
Qed.

Section DryRun.

Variable w : world.
Variable sid : string.

Hypothesis Hdry : DEBUG_MODE w = true.

Let live : world := delivering sid w.

Lemma fetch_tickets_live : fetch_tickets live = fetch_tickets w.
Proof. reflexivity. Qed.

Lemma check_tickets_live (tickets acc : list json) :
  check_tickets live tickets acc = check_tickets w tickets acc.
Proof.
  revert acc. induction tickets as [|ticket rest IH]; intros acc; [done|].
  rewrite !check_tickets_cons.
  destruct (ticket_id_of w ticket) as [i|e] eqn:Hi;
    change (ticket_id_of live ticket) with (ticket_id_of w ticket);
    rewrite Hi; [|done].
  unfold lift. rewrite !pure_bind.
  destruct (get ticket "title" JNone) as [title|e]; [|done].
  rewrite !pure_bind.
  change (KNOWN_TICKET_IDS live) with (KNOWN_TICKET_IDS w).
  change (str_ live title) with (str_ w title).
  destruct (bool_decide (i ∈ KNOWN_TICKET_IDS w));
    unfold logger; rewrite !emit_bind; by rewrite IH.
Qed.

Lemma send_message_live (body : string) :
  send_message live body = (live_send w sid body, Ok tt).
Proof. exact (send_message_delivered live body sid eq_refl eq_refl). Qed.

Lemma dry_run_calm (m : M unit) :
  forallb calm (trace m) = true → dry_run_of w sid m m.
Proof. intros H. exists (trace m), None. simpl. by rewrite app_nil_r. Qed.

Lemma dry_run_send (body : string) :
  dry_run_of w sid (send_message w body) (send_message live body).
Proof.
  exists [], (Some body). by rewrite send_message_live, send_message_dry.
Qed.

Lemma dry_run_after (t : list event) (m m' : M unit) :
  forallb calm t = true → dry_run_of w sid m m' →
  dry_run_of w sid (t ++ trace m, result m) (t ++ trace m', result m').
Proof.
  intros Ht (pre & sent & Hpre & Hm & Hm' & Hr). exists (t ++ pre), sent.
  simpl. rewrite forallb_app, Ht, Hpre, Hm, Hm', !app_assoc. done.
Qed.

Lemma dry_run_notify (new_tickets : list json) :
  dry_run_of w sid (notify w new_tickets) (notify live new_tickets).
Proof.
  rewrite !notify_sent.
  - apply dry_run_send.
  - by rewrite send_message_live.
  - by rewrite send_message_dry.
Qed.

Lemma dry_run_process (response : json) :
  dry_run_of w sid (process w response) (process live response).
Proof.
  rewrite !process_paths.
  destruct (get response "status" (JBool true)) as [status|e];
    [|by apply dry_run_calm].
  destruct (is_False status).
  - destruct (get response "message" JNone) as [message|e];
      [|by apply dry_run_calm].
    apply (dry_run_after [_]); [done | apply dry_run_send].
  - destruct (get response "children" (JList [])) as [children|e];
      [|by apply dry_run_calm].
    destruct (iter children) as [tickets|e]; [|by apply dry_run_calm].
    rewrite check_tickets_live.
    pose proof (check_tickets_calm w tickets []) as Hcalm.
    destruct (result (check_tickets w tickets [])) as [new_tickets|e];
      [|by apply dry_run_calm].
    cbv zeta.
    rewrite !cons_middle, !app_assoc.
    apply dry_run_after; [by rewrite forallb_app, Hcalm|].
    destruct (bool_decide (new_tickets = []));
      [by apply dry_run_calm | apply dry_run_notify].
Qed.

Lemma dry_run_main : dry_run_of w sid (main w) (main live).
Proof.
  destruct (STOP_EXECUTION w) eqn:Hstop.
  - rewrite (main_stopped w Hstop), (main_stopped live Hstop).
    by apply dry_run_calm.
  - destruct (result (fetch_tickets w)) as [response|e] eqn:Hf.
    + rewrite (main_fetched w response Hstop Hf).
      rewrite (main_fetched live response Hstop Hf), fetch_tickets_live.
      rewrite !app_comm_cons.
      apply dry_run_after; [apply fetch_calm | apply dry_run_process].
    + rewrite (main_fetch_failed w e Hstop Hf).
      rewrite (main_fetch_failed live e Hstop Hf), fetch_tickets_live.
      rewrite !app_comm_cons, !cons_middle, !app_assoc.
      apply dry_run_after; [|apply dry_run_send].
      rewrite forallb_app. simpl. by rewrite fetch_calm.
Qed.

End DryRun.

(** Dry runs of [main] -- what holds of C3 for the primary channel: with
    [DEBUG_MODE] set, every call of [send_message] only
    logs the message body and returns normally; a run of [main] hands
    nothing to Twilio and posts nothing to the webhook (the webhook
    function is never reached); and the run is the dry run of the same run
    made live with every SMS delivered: the same events up to the
    notification, the body logged where the live run sends it, and the same
    result. *)
Theorem dry_run_replaces_notifications (w : world) :
  DEBUG_MODE w = true →
  (∀ body, send_message w body = (dry_send body, Ok tt))
  ∧ sms_bodies (trace (main w)) = []
  ∧ posts (trace (main w)) = []
  ∧ (∀ sid, dry_run_of w sid (main w) (main (delivering sid w))).
Proof.
  intros Hdry. split; [intros; by apply send_message_dry|].
  assert (Hsim : ∀ sid, dry_run_of w sid (main w) (main (delivering sid w)))
    by (intros; by apply dry_run_main).
  destruct (Hsim "") as (pre & sent & Hcalm & Htrace & _).
  destruct (calm_silent _ Hcalm) as (Hs & Hp & _).
  rewrite Htrace, sms_bodies_app, posts_app, Hs, Hp.
  repeat split; [by destruct sent | by destruct sent | exact Hsim].
Qed.

Lemma dry_run_replaces_notifications_witness :
  sms_bodies (trace (main w_dry_run)) = []
  ∧ posts (trace (main w_dry_run)) = []
  ∧ result (main w_dry_run) = Ok tt
  ∧ In (Log INFO "Message: 1 🆕 TICKETS") (trace (main w_dry_run)).
Proof.
  destruct (dry_run_replaces_notifications w_dry_run eq_refl)
    as (_ & Hs & Hp & _).
  split; [exact Hs|]. split; [exact Hp|]. split; [reflexivity|].
  vm_compute. tauto.
Defined.


(** ** A response with [status: false] *)

(** [status] counts as true when the response does not carry it, and
    whenever it is anything but the literal [false]. *)
Lemma absent_status_is_not_false (response : record) :
  assoc "status" response = None → status_is_false response = false.
Proof. unfold status_is_false, dict_get. by intros ->. Qed.

(** X16. What [main] does with a refusal is what it does with a failed fetch
    ([main_fetch_failed]), but for the text of the error log: one call of
    [send_message] with "FAILED", whose outcome is the outcome of the run;
    the tickets are not looked at and the webhook is not used. *)
Lemma refusal_handled_like_fetch_failure (w : world) (response : record) :
  STOP_EXECUTION w = false →
  result (fetch_tickets w) = Ok (JDict response) →
  status_is_false response = true →
  main w =
    (Log INFO "Checking for new match tickets..."
       :: trace (fetch_tickets w)
       ++ Log ERROR ("Failed to fetch tickets: "
                       +:+ str_ w (dict_get response "message" JNone))
       :: trace (send_message w "FAILED"),
     result (send_message w "FAILED"))
  ∧ sms_bodies (trace (main w)) = (if DEBUG_MODE w then [] else ["FAILED"])
  ∧ posts (trace (main w)) = [].
Proof.
  intros Hstop Hf Hstatus.
  assert (Hmain : main w =
    (Log INFO "Checking for new match tickets..."
       :: trace (fetch_tickets w)
       ++ Log ERROR ("Failed to fetch tickets: "
                       +:+ str_ w (dict_get response "message" JNone))
       :: trace (send_message w "FAILED"),
     result (send_message w "FAILED"))).
  { by rewrite (main_fetched w _ Hstop Hf), (process_refused w _ Hstatus). }
  split; [exact Hmain|]. rewrite Hmain. simpl trace.
  destruct (calm_silent _ (fetch_calm w)) as (Hs & Hp & _).
  destruct (send_message_effects w "FAILED") as (Hs' & Hp' & _).
  change (sms_bodies (?a :: ?l)) with (sms_bodies ([a] ++ l)).
  change (posts (?a :: ?l)) with (posts ([a] ++ l)).
  rewrite !sms_bodies_app, !posts_app, Hs, Hp.
  change (sms_bodies (?a :: ?l)) with (sms_bodies ([a] ++ l)).
  change (posts (?a :: ?l)) with (posts ([a] ++ l)).
  by rewrite !sms_bodies_app, !posts_app, Hs', Hp'.
Qed.

(** C6. A response with [status: false] and a Twilio failure: the run sends
    one request, logs the refusal, hands "FAILED" to Twilio, never uses the
    webhook -- and then, instead of returning, lets Twilio's exception
    leave [main]. *)
Theorem refusal_with_twilio_down_escapes :
  result (fetch_tickets w_refused_twilio_down) = Ok refusal
  ∧ sms_bodies (trace (main w_refused_twilio_down)) = ["FAILED"]
  ∧ posts (trace (main w_refused_twilio_down)) = []
  ∧ result (main w_refused_twilio_down) = Raise twilio_down.
Proof. repeat split. Qed.

(** ** What can leave [main] *)

(** X20. A run that fetches a well-formed listing returns normally,
    whatever the two channels do. *)
Lemma listing_run_returns (w : world) (T : list record) :
  fetches w T → result (main w) = Ok tt.
Proof.
  intros Hfetch. rewrite (main_listing w T Hfetch). simpl result.
  destruct (bool_decide _); [done | apply notify_returns].
Qed.

(** C4. The request fails on all three attempts and Twilio rejects the
    "FAILED" message: the call of [send_message] in the handler is not
    itself guarded, and Twilio's exception leaves [main]. *)
Theorem failed_notification_escapes :
  fetch_exhausted w_all_down
  ∧ sms_bodies (trace (main w_all_down)) = ["FAILED"]
  ∧ posts (trace (main w_all_down)) = []
  ∧ result (main w_all_down) = Raise twilio_down.
Proof.
  split; [|by repeat split].
  intros n _. exists network_down. by split.
Qed.

(** ** Scenarios of the specification *)

Lemma disabled_run_does_nothing_witness :
  main w_disabled =
    ([Log INFO "Checking for new match tickets...";
      Log INFO "STOP_EXECUTION is enabled. Skipping execution."], Ok tt)
  ∧ http_gets (trace (main w_disabled)) = [].
Proof.
  destruct (disabled_run_does_nothing w_disabled eq_refl) as (Hmain & Hg & _).
  split; [exact Hmain | exact Hg].
Defined.

(** New-ticket scenario: [T = [A; B]] with [K = {"1"}] leaves [[B]], and
    the SMS carries the count. *)
Example new_ticket_scenario :
  diff w_hook_up {["1"]} [ticket_A; ticket_B] = [ticket_B]
  ∧ new_ticket_message [JDict ticket_B] = "1 🆕 TICKETS".
Proof. split; reflexivity. Qed.

(** ** The builtins at work *)

Example strip_ascii : strip "  12 	" = "12".
Proof. reflexivity. Qed.

(** A no-break space (U+00A0, bytes C2 A0) is white space; the A0 that
    ends the encoding of another character is not. *)
Example strip_no_break_space :
  strip (String (ascii_of_nat 194) (String (ascii_of_nat 160) "7")) = "7"
  ∧ strip (String (ascii_of_nat 195) (String (ascii_of_nat 160) ""))
    = String (ascii_of_nat 195) (String (ascii_of_nat 160) "").
Proof. split; reflexivity. Qed.

Example str_of_values :
  str_ w_flaky (JInt (-42)) = "-42"
  ∧ str_ w_flaky JNone = "None"
  ∧ str_ w_flaky (JBool true) = "True"
  ∧ str_ w_flaky (JStr " 7") = " 7".
Proof. repeat split; vm_compute; reflexivity. Qed.

Example a_ticket_without_idx_is_called_None :
  id_of w_flaky [("title", JStr "A")] = "None".
Proof. reflexivity. Qed.

Example wait_schedule : wait <$> [1; 2; 3; 4; 5; 6]%nat = [2; 2; 4; 8; 10; 10].
Proof. reflexivity. Qed.

(** * Further properties of the code *)

(** ** [fetch_tickets] *)

(** X1. [fetch_tickets] never raises a request error: what leaves it is
    either tenacity's [RetryError], after three request errors, or the
    exception of the attempt that was not a request error.  So the handler
    [except requests.RequestException] of [main] (line 135) never runs. *)
Theorem fetch_never_raises_request_error (w : world) (e : exn) :
  result (fetch_tickets w) = Raise e →
  is_request_exception e = false
  ∧ (exn_cls e = RetryError ∧ fetch_exhausted w
     ∨ ∃ k : nat, (1 ≤ k ≤ 3)%nat ∧ http_get w k = Raise e).
Proof.
  unfold fetch_tickets, max_attempts. simpl Nat.sub.
  destruct (http_get w 1) as [r1|e1] eqn:H1.
  { by rewrite (retry_call_ok _ _ _ _ H1). }
  destruct (is_request_exception e1) eqn:He1.
  2:{ rewrite (retry_call_fatal _ _ _ _ H1 He1). intros [= <-].
      split; [done|]. right. exists 1%nat. split; [lia | done]. }
  rewrite (retry_call_again _ _ _ _ H1 He1). change (result (?a, ?b)) with b.
  destruct (http_get w 2) as [r2|e2] eqn:H2.
  { by rewrite (retry_call_ok _ _ _ _ H2). }
  destruct (is_request_exception e2) eqn:He2.
  2:{ rewrite (retry_call_fatal _ _ _ _ H2 He2). intros [= <-].
      split; [done|]. right. exists 2%nat. split; [lia | done]. }
  rewrite (retry_call_again _ _ _ _ H2 He2). change (result (?a, ?b)) with b.
  destruct (http_get w 3) as [r3|e3] eqn:H3.
  { by rewrite (retry_call_ok _ _ _ _ H3). }
  destruct (is_request_exception e3) eqn:He3.
  2:{ rewrite (retry_call_fatal _ _ _ _ H3 He3). intros [= <-].
      split; [done|]. right. exists 3%nat. split; [lia | done]. }
  rewrite (retry_call_stop _ _ _ H3 He3). intros [= <-].
  split; [done|]. left. split; [done|]. intros n Hn.
  assert (n = 1 ∨ n = 2 ∨ n = 3)%nat as [-> | [-> | ->]] by lia; eauto.
Qed.

Lemma fetch_never_raises_request_error_witness :
  is_request_exception broken_body = false
  ∧ result (fetch_tickets w_fatal_second) = Raise broken_body.
Proof.
  destruct (fetch_never_raises_request_error w_fatal_second broken_body
              eq_refl) as [He _].
  split; [exact He | reflexivity].
Defined.

(** X2. Requests and pauses alternate: in every world [fetch_tickets]
    sends between one and three requests, sleeps exactly once between two
    consecutive requests, always for 2 seconds (at most 4 seconds in
    all), and logs one warning per pause. *)
Theorem fetch_pauses_between_requests (w : world) :
  let tr := trace (fetch_tickets w) in
  (1 ≤ length (http_gets tr) ≤ 3)%nat
  ∧ sleeps tr = replicate (length (http_gets tr) - 1) 2
  ∧ length (logged WARNING tr) = length (sleeps tr)
  ∧ http_gets tr = replicate (length (http_gets tr)) (TICKET_URL w).
Proof.
  unfold fetch_tickets, max_attempts. simpl Nat.sub.
  destruct (http_get w 1) as [r1|e1] eqn:H1.
  { rewrite (retry_call_ok _ _ _ _ H1). simpl. repeat split; lia. }
  destruct (is_request_exception e1) eqn:He1.
  2:{ rewrite (retry_call_fatal _ _ _ _ H1 He1). simpl. repeat split; lia. }
  rewrite (retry_call_again _ _ _ _ H1 He1).
  destruct (http_get w 2) as [r2|e2] eqn:H2.
  { rewrite (retry_call_ok _ _ _ _ H2). simpl. repeat split; lia. }
  destruct (is_request_exception e2) eqn:He2.
  2:{ rewrite (retry_call_fatal _ _ _ _ H2 He2). simpl. repeat split; lia. }
  rewrite (retry_call_again _ _ _ _ H2 He2).
  destruct (http_get w 3) as [r3|e3] eqn:H3.
  { rewrite (retry_call_ok _ _ _ _ H3). simpl. repeat split; lia. }
  destruct (is_request_exception e3) eqn:He3.
  - rewrite (retry_call_stop _ _ _ H3 He3). simpl. repeat split; lia.
  - rewrite (retry_call_fatal _ _ _ _ H3 He3). simpl. repeat split; lia.
Qed.

(** X3. The first answer wins: [fetch_tickets] returns [response] exactly
    when some attempt [k] of the three is answered with [response] and
    every attempt before it ended in a request error; it has then sent
    exactly [k] requests. *)
Theorem fetch_returns_first_answer (w : world) (response : json) :
  result (fetch_tickets w) = Ok response
  ↔ ∃ k : nat,
      (1 ≤ k ≤ 3)%nat
      ∧ http_get w k = Ok response
      ∧ (∀ j : nat, (1 ≤ j < k)%nat →
           ∃ e, http_get w j = Raise e ∧ is_request_exception e = true)
      ∧ length (http_gets (trace (fetch_tickets w))) = k.
Proof.
  unfold fetch_tickets, max_attempts. simpl Nat.sub. split.
  - destruct (http_get w 1) as [r1|e1] eqn:H1.
    { rewrite (retry_call_ok _ _ _ _ H1). intros [= <-]. exists 1%nat.
      repeat split; [lia | lia | done | intros; lia]. }
    destruct (is_request_exception e1) eqn:He1.
    2:{ by rewrite (retry_call_fatal _ _ _ _ H1 He1). }
    rewrite (retry_call_again _ _ _ _ H1 He1). change (result (?a, ?b)) with b.
    destruct (http_get w 2) as [r2|e2] eqn:H2.
    { rewrite (retry_call_ok _ _ _ _ H2). intros [= <-]. exists 2%nat.
      repeat split; [lia | lia | done |].
      intros j Hj. assert (j = 1)%nat as -> by lia. eauto. }
    destruct (is_request_exception e2) eqn:He2.
    2:{ by rewrite (retry_call_fatal _ _ _ _ H2 He2). }
    rewrite (retry_call_again _ _ _ _ H2 He2). change (result (?a, ?b)) with b.
    destruct (http_get w 3) as [r3|e3] eqn:H3.
    { rewrite (retry_call_ok _ _ _ _ H3). intros [= <-]. exists 3%nat.
      repeat split; [lia | lia | done |].
      intros j Hj. assert (j = 1 ∨ j = 2)%nat as [-> | ->] by lia; eauto. }
    destruct (is_request_exception e3) eqn:He3.
    + by rewrite (retry_call_stop _ _ _ H3 He3).
    + by rewrite (retry_call_fatal _ _ _ _ H3 He3).
  - intros (k & Hk & Hok & Hbefore & _).
    assert (k = 1 ∨ k = 2 ∨ k = 3)%nat as [-> | [-> | ->]] by lia.
    + by rewrite (retry_call_ok _ _ _ _ Hok).
    + destruct (Hbefore 1%nat) as (e1 & H1 & He1); [lia|].
      rewrite (retry_call_again _ _ _ _ H1 He1).
      by rewrite (retry_call_ok _ _ _ _ Hok).
    + destruct (Hbefore 1%nat) as (e1 & H1 & He1); [lia|].
      destruct (Hbefore 2%nat) as (e2 & H2 & He2); [lia|].
      rewrite (retry_call_again _ _ _ _ H1 He1).
      rewrite (retry_call_again _ _ _ _ H2 He2).
      by rewrite (retry_call_ok _ _ _ _ Hok).
Qed.

(** ** The loop over the tickets, on any JSON values *)

Lemma bind_assoc {A B C : Type} (m : M A) (f : A → M B) (g : B → M C) :
  (m ≫= f) ≫= g = m ≫= (fun a => f a ≫= g).
Proof.
  destruct m as [t [a|e]]; [|done]. unfold mbind, M_bind.
  destruct (f a) as [t' [b|e']]; [|done].
  destruct (g b) as [t'' r]. by rewrite app_assoc.
Qed.

Lemma emit_then {B C : Type} (ev : event) (m : M B) (g : B → M C) :
  (emit ev ≫= fun _ => m) ≫= g = emit ev ≫= fun _ => m ≫= g.
Proof. apply bind_assoc. Qed.

(** X4. The loop composes: checking [l1 ++ l2] is checking [l1] and then,
    from the list built so far, checking [l2] -- whatever the entries are,
    well-formed or not. *)
Theorem check_tickets_app (w : world) (l1 l2 acc : list json) :
  check_tickets w (l1 ++ l2) acc
    = check_tickets w l1 acc ≫= check_tickets w l2.
Proof.
  revert acc. induction l1 as [|ticket l1 IH]; intros acc.
  - simpl app. change (check_tickets w [] acc) with (([], Ok acc) : M _).
    by rewrite pure_bind.
  - rewrite <- app_comm_cons, !check_tickets_cons. unfold lift, logger.
    destruct (ticket_id_of w ticket) as [i|e]; [|done]. rewrite !pure_bind.
    destruct (get ticket "title" JNone) as [title|e]; [|done].
    rewrite !(pure_bind title).
    destruct (bool_decide (i ∈ KNOWN_TICKET_IDS w));
      by rewrite emit_then, IH.
Qed.

Lemma check_tickets_not_dict (w : world) (ticket : json) (rest acc : list json) :
  is_dict ticket = false →
  check_tickets w (ticket :: rest) acc =
    ([], Raise (Exn AttributeError
                  ("'" +:+ type_name ticket
                     +:+ "' object has no attribute 'get'"))).
Proof. rewrite check_tickets_cons. by destruct ticket. Qed.

(** X5. The loop completes exactly when every entry is a JSON object.  It
    then returns the list built so far followed by entries of the input,
    in their order.  Otherwise it raises [AttributeError] -- at the first
    entry that is not an object -- and the entries found before it are
    lost. *)
Theorem check_tickets_completes_iff_objects (w : world)
    (tickets acc : list json) :
  (forallb is_dict tickets = true →
   ∃ found, result (check_tickets w tickets acc) = Ok (acc ++ found)
            ∧ found `sublist_of` tickets)
  ∧ (forallb is_dict tickets = false →
     ∃ text, result (check_tickets w tickets acc)
             = Raise (Exn AttributeError text)).
Proof.
  revert acc. induction tickets as [|ticket rest IH]; intros acc.
  { split; [|done]. intros _. exists []. by rewrite app_nil_r. }
  destruct (is_dict ticket) eqn:Hd.
  - destruct ticket as [| | | | | |d]; try discriminate.
    simpl forallb. rewrite check_tickets_cons. unfold lift, logger.
    rewrite ticket_id_of_record, (pure_bind (id_of w d)).
    change (get (JDict d) "title" JNone)
      with (Ok (dict_get d "title" JNone)).
    rewrite (pure_bind (dict_get d "title" JNone)).
    destruct (bool_decide _); rewrite emit_bind;
      change (result (?a, ?b)) with b.
    + destruct (IH acc) as [Hok Hbad]. split.
      * intros Hall. destruct (Hok Hall) as (found & -> & Hsub).
        exists found. split; [done | by apply sublist_cons].
      * exact Hbad.
    + destruct (IH (acc ++ [JDict d])) as [Hok Hbad]. split.
      * intros Hall. destruct (Hok Hall) as (found & -> & Hsub).
        exists (JDict d :: found). rewrite <- app_assoc.
        split; [done | by apply sublist_skip].
      * exact Hbad.
  - split; [by simpl; rewrite Hd|]. intros _.
    rewrite (check_tickets_not_dict _ _ _ _ Hd). by eexists.
Qed.

(** ** Known ids *)

(** X6. Acknowledging more tickets only silences tickets: when a second
    run knows every id the first run knew (and renders values alike), the
    loop of the second run over the same listing returns a sublist of what
    the loop of the first run returned; and when the second run also knows
    the ids of everything the first run reported, its loop returns
    nothing. *)
Theorem known_ids_only_silence (w w' : world) (T : list record) :
  py_repr w' = py_repr w →
  KNOWN_TICKET_IDS w ⊆ KNOWN_TICKET_IDS w' →
  ∃ new new' : list record,
    result (check_tickets w (JDict <$> T) []) = Ok (JDict <$> new)
    ∧ result (check_tickets w' (JDict <$> T) []) = Ok (JDict <$> new')
    ∧ new' `sublist_of` new
    ∧ ((∀ t, t ∈ new → id_of w t ∈ KNOWN_TICKET_IDS w') → new' = []).
Proof.
  intros Hrepr Hsub.
  assert (Hid : ∀ t, id_of w' t = id_of w t).
  { intros t. unfold id_of, str_. by rewrite Hrepr. }
  exists (diff w (KNOWN_TICKET_IDS w) T), (diff w' (KNOWN_TICKET_IDS w') T).
  split; [apply (check_tickets_records w T [])|].
  split; [apply (check_tickets_records w' T [])|].
  split.
  - induction T as [|t T IH]; [done|]. unfold diff in *.
    rewrite !filter_cons, Hid.
    destruct (decide (id_of w t ∉ KNOWN_TICKET_IDS w')) as [Hnew'|Hknown'];
      destruct (decide (id_of w t ∉ KNOWN_TICKET_IDS w)) as [Hnew|Hknown].
    + by apply sublist_skip.
    + exfalso. apply Hnew'. apply Hsub. by apply dec_stable.
    + by apply sublist_cons.
    + exact IH.
  - intros Hack. apply diff_nil_of_known. intros t Ht. rewrite Hid.
    destruct (decide (id_of w t ∈ KNOWN_TICKET_IDS w)) as [Hin|Hout].
    + by apply Hsub.
    + apply Hack. unfold diff. by apply list_elem_of_filter.
Qed.

Lemma known_ids_only_silence_witness :
  ∃ new new' : list record,
    result (check_tickets w_hook_up (JDict <$> [ticket_A; ticket_B]) [])
      = Ok (JDict <$> new)
    ∧ result (check_tickets (knowing {["1"; "2"]} w_hook_up)
                (JDict <$> [ticket_A; ticket_B]) [])
      = Ok (JDict <$> new')
    ∧ new' `sublist_of` new
    ∧ ((∀ t, t ∈ new →
          id_of w_hook_up t
            ∈ KNOWN_TICKET_IDS (knowing {["1"; "2"]} w_hook_up)) →
       new' = []).
Proof.
  apply known_ids_only_silence; [reflexivity|].
  change (({["1"]} : gset string) ⊆ {["1"; "2"]}). set_solver.
Defined.

(** ** [send_webhook_notification], on any JSON values *)

Section Webhook.

Variable w : world.

Lemma ticket_lines_shape (tickets : list json) (acc : list string) :
  trace (ticket_lines w tickets acc) = []
  ∧ (forallb is_dict tickets = true →
     ∃ lines, result (ticket_lines w tickets acc) = Ok lines)
  ∧ (forallb is_dict tickets = false →
     ∃ text, result (ticket_lines w tickets acc)
             = Raise (Exn AttributeError text)).
Proof.
  revert acc. induction tickets as [|ticket rest IH]; intros acc.
  { split; [done|]. split; [by eexists | done]. }
  cbn [ticket_lines forallb]. unfold lift.
  destruct ticket as [| | | | | |d];
    try (split; [done|]; split; [done | by eexists]).
  change (get (JDict d) ?k ?v) with (Ok (dict_get d k v)).
  rewrite (pure_bind (dict_get d "title" (JStr "Unknown"))).
  rewrite (pure_bind (dict_get d "idx" (JStr "Unknown"))).
  apply IH.
Qed.

(** [send_webhook_notification], path by path. *)
Lemma send_webhook_paths (new_tickets : list json) :
  send_webhook_notification w new_tickets =
    match WEBHOOK_URL w with
    | None | Some EmptyString =>
        ([Log WARNING "WEBHOOK_URL not set, skipping notification"], Ok tt)
    | Some url =>
        match result (ticket_lines w new_tickets
                        ["🎫 **New Match Tickets Available!**" +:+ newline])
        with
        | Raise e => ([], Raise e)
        | Ok lines =>
            let payload :=
              webhook_payload url (join newline lines) new_tickets in
            match http_post w url payload with
            | Ok _ =>
                ([HttpPost url payload;
                  Log INFO "Webhook notification sent successfully"], Ok tt)
            | Raise e =>
                if is_request_exception e then
                  ([HttpPost url payload;
                    Log ERROR ("Failed to send webhook notification: "
                                 +:+ exn_text e)], Ok tt)
                else ([HttpPost url payload], Raise e)
            end
        end
    end.
Proof.
  unfold send_webhook_notification.
  destruct (WEBHOOK_URL w) as [[|c url]|]; [done| |done].
  rewrite bind_eta.
  destruct (ticket_lines_shape new_tickets
              ["🎫 **New Match Tickets Available!**" +:+ newline])
    as (-> & _ & _).
  destruct (result (ticket_lines w new_tickets _)) as [lines|e]; [|done].
  rewrite (pure_bind lines). cbv zeta. unfold lift, logger.
  rewrite emit_bind.
  destruct (http_post w (String c url) _) as [[]|e].
  - by rewrite (pure_bind tt).
  - rewrite bind_raise. change (trace (?a, ?b)) with a.
    change (result (?a, ?b)) with b.
    rewrite try_except_raise. by destruct (is_request_exception e).
Qed.

Lemma send_webhook_shape (new_tickets : list json) :
  let tr := trace (send_webhook_notification w new_tickets) in
  http_gets tr = [] ∧ sms_bodies tr = []
  ∧ (length (posts tr) ≤ 1)%nat
  ∧ (posts tr ≠ [] → ∃ url, webhook_configured w url)
  ∧ (∀ e, result (send_webhook_notification w new_tickets) = Raise e →
          is_request_exception e = false).
Proof.
  rewrite send_webhook_paths.
  destruct (WEBHOOK_URL w) as [[|c url]|] eqn:Hurl;
    [by repeat split; auto | | by repeat split; auto].
  destruct (ticket_lines_shape new_tickets
              ["🎫 **New Match Tickets Available!**" +:+ newline])
    as (_ & Hok & Hbad).
  destruct (forallb is_dict new_tickets).
  - destruct Hok as [lines ->]; [done|]. cbv zeta.
    assert (Hconf : ∃ url0, webhook_configured w url0).
    { exists (String c url). by split. }
    destruct (http_post w _ _) as [[]|e];
      [|destruct (is_request_exception e) eqn:He]; simpl;
      repeat split; auto; try lia; try done.
    by intros e' [= <-].
  - destruct Hbad as [text ->]; [done|]. simpl. repeat split; auto; try done.
    by intros e' [= <-].
Qed.

End Webhook.

(** X7. [send_webhook_notification] never raises a request error and
    posts at most once: a request error of the post is logged and the
    function returns normally; nothing is posted unless a webhook is
    configured; and the function touches neither the ticket endpoint nor
    Twilio. *)
Theorem webhook_swallows_request_errors (w : world) (new_tickets : list json) :
  let tr := trace (send_webhook_notification w new_tickets) in
  (∀ e, result (send_webhook_notification w new_tickets) = Raise e →
        is_request_exception e = false)
  ∧ (length (posts tr) ≤ 1)%nat
  ∧ (posts tr ≠ [] → ∃ url, webhook_configured w url)
  ∧ http_gets tr = [] ∧ sms_bodies tr = []
  ∧ (∀ url payload e,
       webhook_configured w url → posts tr = [(url, payload)] →
       http_post w url payload = Raise e → is_request_exception e = true →
       result (send_webhook_notification w new_tickets) = Ok tt
       ∧ logged ERROR tr
         = ["Failed to send webhook notification: " +:+ exn_text e]).
Proof.
  destruct (send_webhook_shape w new_tickets) as (Hg & Hs & Hp & Hc & He).
  cbv zeta. repeat (split; [done|]).
  intros url payload e [Hurl Hne]. rewrite send_webhook_paths, Hurl.
  destruct url as [|c url]; [done|].
  destruct (result (ticket_lines w new_tickets _)) as [lines|e0]; [|done].
  cbv zeta. destruct (http_post w (String c url) _) as [[]|e'] eqn:Hpost.
  - simpl. intros [= <-]. by rewrite Hpost.
  - destruct (is_request_exception e') eqn:He'; simpl; intros [= <-];
      rewrite Hpost; intros [= <-]; [done | congruence].
Qed.

(** X8. The rendering comes before the post: when a webhook is configured
    and some ticket is not a JSON object, [send_webhook_notification]
    raises [AttributeError] and nothing is posted, not even for the
    well-formed tickets; without a webhook the tickets are not looked at
    and the function returns normally. *)
Theorem webhook_renders_before_posting (w : world) (new_tickets : list json) :
  forallb is_dict new_tickets = false →
  ((∃ url, webhook_configured w url) →
   trace (send_webhook_notification w new_tickets) = []
   ∧ ∃ text, result (send_webhook_notification w new_tickets)
             = Raise (Exn AttributeError text))
  ∧ (WEBHOOK_URL w = None ∨ WEBHOOK_URL w = Some "" →
     result (send_webhook_notification w new_tickets) = Ok tt).
Proof.
  intros Hbad. rewrite send_webhook_paths. split.
  - intros (url & Hurl & Hne). rewrite Hurl.
    destruct url as [|c url]; [done|].
    destruct (ticket_lines_shape w new_tickets
                ["🎫 **New Match Tickets Available!**" +:+ newline])
      as (_ & _ & Hraise).
    destruct (Hraise Hbad) as [text ->]. split; [done | by exists text].
  - by intros [-> | ->].
Qed.

Lemma webhook_renders_before_posting_witness :
  trace (send_webhook_notification w_hook_up [JDict ticket_B; JStr "oops"])
    = []
  ∧ result (send_webhook_notification w_no_hook [JDict ticket_B; JStr "oops"])
    = Ok tt.
Proof.
  destruct (webhook_renders_before_posting w_hook_up
              [JDict ticket_B; JStr "oops"] eq_refl) as [Hconf _].
  destruct (webhook_renders_before_posting w_no_hook
              [JDict ticket_B; JStr "oops"] eq_refl) as [_ Hunset].
  split.
  - apply Hconf. exists "https://hooks.example/notify".
    split; [reflexivity | discriminate].
  - apply Hunset. by left.
Defined.

(** ** The format of the webhook payload *)

Lemma append_cons (c : ascii) (s t : string) :
  String c s +:+ t = String c (s +:+ t).
Proof. done. Qed.

Lemma prefix_iff (p s : string) :
  String.prefix p s = true ↔ ∃ b, s = p +:+ b.
Proof.
  revert s. induction p as [|c p IH]; intros s.
  - split; [intros _; by exists s | by destruct s].
  - destruct s as [|c' s]; simpl.
    + split; [done | by intros [b Hb]].
    + destruct (ascii_dec c c') as [<-|Hne].
      * rewrite IH. split; intros [b Hb]; exists b.
        -- by rewrite append_cons, Hb.
        -- rewrite append_cons in Hb. by injection Hb.
      * split; [done|]. intros [b Hb]. rewrite append_cons in Hb.
        injection Hb as Hc _. by symmetry in Hc.
Qed.

(** [contains] is Python's [in]: the substring occurs somewhere. *)
Lemma contains_iff (sub s : string) :
  contains sub s = true ↔ ∃ a b, s = a +:+ sub +:+ b.
Proof.
  induction s as [|c s IH].
  - cbn [contains]. rewrite orb_false_r, prefix_iff. split.
    + intros [b Hb]. by exists "", b.
    + intros (a & b & Hab). destruct a as [|c a]; [by exists b | done].
  - cbn [contains]. rewrite orb_true_iff, prefix_iff, IH. split.
    + intros [[b Hb] | (a & b & Hab)].
      * by exists "", b.
      * exists (String c a), b. by rewrite append_cons, Hab.
    + intros (a & b & Hab). destruct a as [|c' a].
      * left. by exists b.
      * right. rewrite append_cons in Hab. injection Hab as _ Hs.
        by exists a, b.
Qed.

(** X9. The payload format is chosen by substring, Discord first: a URL in
    which "discord.com" occurs anywhere gets the keys [content] and
    [username], even when "slack.com" occurs too; otherwise a URL in which
    "slack.com" occurs gets the single key [text]; and the ticket records
    themselves are sent exactly when neither occurs. *)
Theorem webhook_format_by_substring (url message : string)
    (new_tickets : list json) :
  let payload := webhook_payload url message new_tickets in
  let mentions (host : string) := ∃ a b, url = a +:+ host +:+ b in
  (mentions "discord.com" → keys payload = ["content"; "username"])
  ∧ (¬ mentions "discord.com" → mentions "slack.com" →
     keys payload = ["text"])
  ∧ (get payload "tickets" JNone = Ok (JList new_tickets)
     ↔ ¬ mentions "discord.com" ∧ ¬ mentions "slack.com")
  ∧ (get payload "tickets" JNone = Ok JNone
     ↔ mentions "discord.com" ∨ mentions "slack.com").
Proof.
  intros payload mentions. unfold payload, webhook_payload, mentions.
  rewrite <- !contains_iff.
  destruct (contains "discord.com" url), (contains "slack.com" url);
    simpl; repeat split; try done; try tauto; try (intros []; done);
    try (intros [? ?]; done); auto.
Qed.

(** ** Every run of [main] *)

Lemma http_gets_app (tr1 tr2 : list event) :
  http_gets (tr1 ++ tr2) = http_gets tr1 ++ http_gets tr2.
Proof. apply omap_app. Qed.

Lemma sleeps_app (tr1 tr2 : list event) :
  sleeps (tr1 ++ tr2) = sleeps tr1 ++ sleeps tr2.
Proof. apply omap_app. Qed.

Lemma only_logs_app (tr1 tr2 : list event) :
  only_logs tr1 → only_logs tr2 → only_logs (tr1 ++ tr2).
Proof.
  unfold only_logs. intros (Hg & Hz & Hs & Hp) (Hg' & Hz' & Hs' & Hp').
  by rewrite http_gets_app, sleeps_app, sms_bodies_app, posts_app, Hg, Hz, Hs,
    Hp, Hg', Hz', Hs', Hp'.
Qed.

Lemma progress_only_logs (tr : list event) :
  forallb is_progress_log tr = true → only_logs tr.
Proof.
  induction tr as [|ev tr IH]; [done|]. cbn [forallb].
  intros [Hev Htr]%andb_prop. destruct (IH Htr) as (Hg & Hz & Hs & Hp).
  destruct ev as [[] ?| | | |]; try discriminate;
    apply (only_logs_app [_] tr); done.
Qed.

Lemma only_logs_log (lvl : level) (text : string) : only_logs [Log lvl text].
Proof. done. Qed.

Lemma only_logs_discipline (w : world) (tr : list event) :
  only_logs tr → fallback_discipline w tr.
Proof.
  intros (Hg & _ & Hs & Hp). unfold fallback_discipline.
  rewrite Hg, Hs, Hp. repeat split; auto; done.
Qed.

Lemma discipline_after_logs (w : world) (pre tr : list event) :
  only_logs pre → fallback_discipline w tr →
  fallback_discipline w (pre ++ tr).
Proof.
  intros (Hg & _ & Hs & Hp) (Hg' & Hs' & Hp' & Hfb).
  unfold fallback_discipline.
  by rewrite http_gets_app, sms_bodies_app, posts_app, Hg, Hs, Hp, Hg'.
Qed.

Section EveryRun.

Variable w : world.

Lemma send_message_discipline (body : string) :
  fallback_discipline w (trace (send_message w body)).
Proof.
  unfold fallback_discipline.
  destruct (DEBUG_MODE w) eqn:Hd.
  - rewrite send_message_dry by done. simpl. repeat split; auto; done.
  - destruct (twilio_create w body) as [sid|e] eqn:Hc.
    + rewrite (send_message_delivered _ _ sid) by done. simpl.
      repeat split; auto; done.
    + rewrite (send_message_raises _ _ e) by done. simpl.
      repeat split; auto; done.
Qed.

Lemma notify_discipline (new_tickets : list json) :
  fallback_discipline w (trace (notify w new_tickets)).
Proof.
  destruct (result (send_message w (new_ticket_message new_tickets)))
    as [[]|e] eqn:Hsend.
  { rewrite notify_sent by done. apply send_message_discipline. }
  rewrite send_message_result in Hsend.
  destruct (DEBUG_MODE w) eqn:Hd; [done|].
  destruct (twilio_create w (new_ticket_message new_tickets))
    as [sid|e'] eqn:Hc; [done|]. injection Hsend as ->.
  rewrite (notify_fallback w new_tickets e Hd Hc).
  destruct (send_webhook_shape w new_tickets) as (Hg & Hs & Hp & Hconf & _).
  cbv zeta in *. unfold fallback_discipline.
  rewrite !http_gets_app, !sms_bodies_app, !posts_app, Hg, Hs.
  assert (Htail : ∀ r : outcome unit,
            only_logs match r with
                      | Ok _ => []
                      | Raise e' =>
                          [Log ERROR ("Failed to send webhook notification: "
                                        +:+ exn_text e');
                           Log CRITICAL
                             "Failed to send notification. Please check once."]
                      end) by (by intros [|]).
  destruct (Htail (result (send_webhook_notification w new_tickets)))
    as (-> & _ & -> & ->).
  simpl. rewrite !app_nil_r. repeat split; auto. eauto.
Qed.

Lemma process_discipline (response : json) :
  fallback_discipline w (trace (process w response)).
Proof.
  rewrite process_paths.
  destruct (get response "status" (JBool true)) as [status|e];
    [|by apply only_logs_discipline].
  destruct (is_False status).
  - destruct (get response "message" JNone) as [message|e];
      [|by apply only_logs_discipline].
    apply (discipline_after_logs w [_]); [done|].
    apply send_message_discipline.
  - destruct (get response "children" (JList [])) as [children|e];
      [|by apply only_logs_discipline].
    destruct (iter children) as [tickets|e];
      [|by apply only_logs_discipline].
    pose proof (progress_only_logs _ (check_tickets_logs w tickets []))
      as Hloop.
    destruct (result (check_tickets w tickets [])) as [new_tickets|e];
      [|by apply only_logs_discipline].
    cbv zeta. change (trace (?a, ?b)) with a.
    rewrite cons_middle, app_assoc. apply discipline_after_logs.
    + by apply only_logs_app.
    + destruct (bool_decide (new_tickets = []));
        [by apply only_logs_discipline | apply notify_discipline].
Qed.

(** After the fetch, a run keeps the discipline of the fallback. *)
Lemma main_discipline :
  ∃ tail, trace (main w)
          = Log INFO "Checking for new match tickets..."
              :: (if STOP_EXECUTION w then [] else trace (fetch_tickets w))
              ++ tail
          ∧ fallback_discipline w tail.
Proof.
  destruct (STOP_EXECUTION w) eqn:Hstop.
  - rewrite (main_stopped w Hstop). eexists [_]. split; [done|].
    by apply only_logs_discipline.
  - destruct (result (fetch_tickets w)) as [response|e] eqn:Hf.
    + rewrite (main_fetched w response Hstop Hf). eexists. split; [done|].
      apply process_discipline.
    + rewrite (main_fetch_failed w e Hstop Hf). eexists. split; [done|].
      apply (discipline_after_logs w [_]); [done|].
      apply send_message_discipline.
Qed.

End EveryRun.

(** X10. Whatever the endpoint, Twilio and the webhook answer, and whatever
    shape the response has, one run of [main] sends at most three requests
    to the ticket endpoint, hands at most one message to Twilio and posts
    at most once to the webhook. *)
Theorem run_uses_each_channel_at_most_once (w : world) :
  (length (http_gets (trace (main w))) ≤ 3)%nat
  ∧ (length (sms_bodies (trace (main w))) ≤ 1)%nat
  ∧ (length (posts (trace (main w))) ≤ 1)%nat.
Proof.
  destruct (main_discipline w) as (tail & -> & Hg & Hs & Hp & _).
  assert (Hfetch :
    (length (http_gets (if STOP_EXECUTION w then []
                        else trace (fetch_tickets w))) ≤ 3)%nat
    ∧ sms_bodies (if STOP_EXECUTION w then [] else trace (fetch_tickets w))
      = []
    ∧ posts (if STOP_EXECUTION w then [] else trace (fetch_tickets w)) = []).
  { destruct (STOP_EXECUTION w); [simpl; repeat split; lia|].
    destruct (calm_silent _ (fetch_calm w)) as (-> & -> & _).
    split; [apply (retry_call_bounded w 2 1) | done]. }
  destruct Hfetch as (Hg' & Hs' & Hp').
  rewrite app_comm_cons, http_gets_app, sms_bodies_app, posts_app, Hg.
  change (http_gets (?a :: ?l)) with (http_gets ([a] ++ l)).
  change (sms_bodies (?a :: ?l)) with (sms_bodies ([a] ++ l)).
  change (posts (?a :: ?l)) with (posts ([a] ++ l)).
  rewrite http_gets_app, sms_bodies_app, posts_app, Hs', Hp'.
  simpl. rewrite app_nil_r. repeat split; lia.
Qed.

(** X11. The webhook is a fallback only: if a run posts to the webhook,
    then it is a live run that was not disabled, a webhook is configured,
    and exactly one message was handed to Twilio, which raised on it. *)
Theorem webhook_only_after_sms_failure (w : world) :
  posts (trace (main w)) ≠ [] →
  DEBUG_MODE w = false
  ∧ STOP_EXECUTION w = false
  ∧ (∃ url, webhook_configured w url)
  ∧ ∃ body e, sms_bodies (trace (main w)) = [body]
              ∧ twilio_create w body = Raise e.
Proof.
  destruct (main_discipline w) as (tail & Htrace & Hg & Hs & Hp & Hfb).
  assert (Hposts : posts (trace (main w)) = posts tail
                   ∧ sms_bodies (trace (main w)) = sms_bodies tail).
  { rewrite Htrace.
    change (posts (?a :: ?l)) with (posts ([a] ++ l)).
    change (sms_bodies (?a :: ?l)) with (sms_bodies ([a] ++ l)).
    rewrite !posts_app, !sms_bodies_app.
    destruct (STOP_EXECUTION w); [done|].
    by destruct (calm_silent _ (fetch_calm w)) as (-> & -> & _). }
  destruct Hposts as [-> ->]. intros Hposted.
  destruct (Hfb Hposted) as (Hd & Hconf & Hsms).
  repeat split; try done.
  destruct (STOP_EXECUTION w) eqn:Hstop; [|done].
  exfalso. apply Hposted. rewrite (main_stopped w Hstop) in Htrace.
  simpl in Htrace. injection Htrace as <-. done.
Qed.

Lemma webhook_only_after_sms_failure_witness :
  DEBUG_MODE w_hook_up = false
  ∧ ∃ body e, sms_bodies (trace (main w_hook_up)) = [body]
              ∧ twilio_create w_hook_up body = Raise e.
Proof.
  destruct (webhook_only_after_sms_failure w_hook_up) as (Hd & _ & _ & Hs).
  - vm_compute. discriminate.
  - split; [exact Hd | exact Hs].
Defined.

(** X12. The ordinary success: in a live run that finds new tickets and
    whose SMS Twilio accepts, [main] ends with that one call -- recipient
    and sender from the configuration, the count of new tickets in the
    body -- logs the SID, never calls the webhook, and returns normally. *)
Theorem delivered_sms_ends_the_run (w : world) (T : list record)
    (sid : string) :
  let new := diff w (KNOWN_TICKET_IDS w) T in
  let body := pretty (length new) +:+ " 🆕 TICKETS" in
  fetches w T → new ≠ [] → DEBUG_MODE w = false →
  twilio_create w body = Ok sid →
  result (main w) = Ok tt
  ∧ sms_bodies (trace (main w)) = [body]
  ∧ posts (trace (main w)) = []
  ∧ ∃ pre, forallb calm pre = true
           ∧ trace (main w) = pre ++ live_send w sid body.
Proof.
  intros new body Hfetch Hnew Hlive Hsid.
  assert (Hbody : new_ticket_message (JDict <$> new) = body).
  { unfold new_ticket_message, body. by rewrite length_fmap. }
  destruct (main_notifies w T Hfetch Hnew) as (pre & Hcalm & Hmain).
  fold new in Hmain. rewrite notify_sent in Hmain.
  2:{ rewrite Hbody, (send_message_delivered w body sid Hlive Hsid). done. }
  rewrite Hbody, (send_message_delivered w body sid Hlive Hsid) in Hmain.
  rewrite Hmain. change (trace (?a, ?b)) with a.
  change (result (?a, ?b)) with b.
  destruct (calm_silent _ Hcalm) as (Hs & Hp & _).
  rewrite sms_bodies_app, posts_app, Hs, Hp.
  split; [done|]. split; [done|]. split; [done|]. by exists pre.
Qed.

Lemma delivered_sms_ends_the_run_witness :
  result (main w_sms_up) = Ok tt
  ∧ sms_bodies (trace (main w_sms_up)) = ["1 🆕 TICKETS"]
  ∧ posts (trace (main w_sms_up)) = [].
Proof.
  assert (Hfetch : fetches w_sms_up [ticket_A; ticket_B]).
  { split; [reflexivity|].
    exists [("children", JList [JDict ticket_A; JDict ticket_B])].
    split; [reflexivity|]. split; reflexivity. }
  destruct (delivered_sms_ends_the_run w_sms_up [ticket_A; ticket_B] "SM1"
              Hfetch) as (Hr & Hs & Hp & _).
  - vm_compute. discriminate.
  - reflexivity.
  - reflexivity.
  - split; [exact Hr|]. split; [exact Hs | exact Hp].
Defined.

(** ** Responses of the wrong shape *)

(** X13. A response that is not a JSON object: [response.get] raises
    [AttributeError], which leaves [main] at once -- nothing is logged
    after the fetch, and nobody is notified, not even with "FAILED". *)
Theorem non_object_response_escapes (w : world) (response : json) :
  STOP_EXECUTION w = false →
  result (fetch_tickets w) = Ok response →
  is_dict response = false →
  main w =
    (Log INFO "Checking for new match tickets..." :: trace (fetch_tickets w),
     Raise (Exn AttributeError
              ("'" +:+ type_name response
                 +:+ "' object has no attribute 'get'")))
  ∧ sms_bodies (trace (main w)) = []
  ∧ posts (trace (main w)) = [].
Proof.
  intros Hstop Hf Hshape.
  assert (Hmain : main w =
    (Log INFO "Checking for new match tickets..." :: trace (fetch_tickets w),
     Raise (Exn AttributeError
              ("'" +:+ type_name response
                 +:+ "' object has no attribute 'get'")))).
  { rewrite (main_fetched w response Hstop Hf), process_paths.
    destruct response; try discriminate; simpl; by rewrite app_nil_r. }
  split; [exact Hmain|]. rewrite Hmain. change (trace (?a, ?b)) with a.
  destruct (calm_silent _ (fetch_calm w)) as (Hs & Hp & _).
  change (sms_bodies (?a :: ?l)) with (sms_bodies ([a] ++ l)).
  change (posts (?a :: ?l)) with (posts ([a] ++ l)).
  by rewrite sms_bodies_app, posts_app, Hs, Hp.
Qed.

Lemma non_object_response_escapes_witness :
  result (main w_array_body)
    = Raise (Exn AttributeError "'list' object has no attribute 'get'")
  ∧ sms_bodies (trace (main w_array_body)) = [].
Proof.
  destruct (non_object_response_escapes w_array_body (JList [JDict ticket_B]))
    as (Hmain & Hs & _); [reflexivity | reflexivity | reflexivity |].
  split; [by rewrite Hmain | exact Hs].
Defined.

Lemma check_tickets_raises (w : world) (tickets acc : list json) :
  forallb is_dict tickets = false →
  ∃ text, result (check_tickets w tickets acc)
          = Raise (Exn AttributeError text).
Proof.
  revert acc. induction tickets as [|ticket rest IH]; intros acc; [done|].
  destruct (is_dict ticket) eqn:Hd.
  - destruct ticket as [| | | | | |d]; try discriminate.
    simpl forallb. intros Hrest. rewrite check_tickets_cons.
    unfold lift, logger.
    rewrite ticket_id_of_record, (pure_bind (id_of w d)).
    change (get (JDict d) "title" JNone)
      with (Ok (dict_get d "title" JNone)).
    rewrite (pure_bind (dict_get d "title" JNone)).
    destruct (bool_decide _); rewrite emit_bind;
      change (result (?a, ?b)) with b; by apply IH.
  - intros _. rewrite (check_tickets_not_dict _ _ _ _ Hd). by eexists.
Qed.

(** X14. One malformed entry silences the run: when some entry of
    [children] is not a JSON object, the loop's [AttributeError] leaves
    [main], and no notification is made on either channel -- not even for
    new tickets listed before the malformed entry. *)
Theorem malformed_entry_silences_the_run (w : world) (response : record)
    (tickets : list json) :
  STOP_EXECUTION w = false →
  result (fetch_tickets w) = Ok (JDict response) →
  status_is_false response = false →
  iter (dict_get response "children" (JList [])) = Ok tickets →
  forallb is_dict tickets = false →
  (∃ text, result (main w) = Raise (Exn AttributeError text))
  ∧ sms_bodies (trace (main w)) = []
  ∧ posts (trace (main w)) = [].
Proof.
  intros Hstop Hf Hstatus Hiter Hbad.
  destruct (check_tickets_raises w tickets [] Hbad) as [text Hraise].
  assert (Hmain : main w =
    (Log INFO "Checking for new match tickets..."
       :: trace (fetch_tickets w) ++ trace (check_tickets w tickets []),
     Raise (Exn AttributeError text))).
  { rewrite (main_fetched w _ Hstop Hf), process_paths.
    unfold get. cbv beta iota. unfold status_is_false in Hstatus.
    by rewrite Hstatus, Hiter, Hraise. }
  rewrite Hmain. split; [by exists text|]. change (trace (?a, ?b)) with a.
  destruct (calm_silent _ (fetch_calm w)) as (Hs & Hp & _).
  destruct (calm_silent _ (check_tickets_calm w tickets [])) as (Hs' & Hp' & _).
  change (sms_bodies (?a :: ?l)) with (sms_bodies ([a] ++ l)).
  change (posts (?a :: ?l)) with (posts ([a] ++ l)).
  by rewrite !sms_bodies_app, !posts_app, Hs, Hp, Hs', Hp'.
Qed.

Lemma malformed_entry_silences_the_run_witness :
  In (Log INFO "🆕 Found new ticket: B (2)") (trace (main w_bad_entry))
  ∧ sms_bodies (trace (main w_bad_entry)) = []
  ∧ posts (trace (main w_bad_entry)) = [].
Proof.
  destruct (malformed_entry_silences_the_run w_bad_entry
              [("children", JList [JDict ticket_B; JStr "oops"])]
              [JDict ticket_B; JStr "oops"])
    as (_ & Hs & Hp);
    [reflexivity | reflexivity | reflexivity | reflexivity | reflexivity |].
  split; [vm_compute; tauto|]. split; [exact Hs | exact Hp].
Defined.

(** ** The configuration *)

Lemma comma_free_cons (c : ascii) (s : string) :
  comma_free (String c s) = true →
  Ascii.eqb c Env.comma = false ∧ comma_free s = true.
Proof.
  unfold comma_free. simpl. intros [Hc Hs]%andb_prop.
  split; [by apply negb_true_iff | done].
Qed.

Lemma split_go_last (s : string) :
  comma_free s = true → Env.split_go Env.comma s = (s, []).
Proof.
  induction s as [|c s IH]; [done|].
  intros [Hc Hs]%comma_free_cons. simpl. by rewrite (IH Hs), Hc.
Qed.

Lemma split_go_piece (s rest : string) :
  comma_free s = true →
  Env.split_go Env.comma (s +:+ String Env.comma rest)
    = (s, Env.split Env.comma rest).
Proof.
  induction s as [|c s IH].
  - intros _. unfold Env.split.
    change ("" +:+ String Env.comma rest) with (String Env.comma rest).
    cbn [Env.split_go]. destruct (Env.split_go Env.comma rest).
    by rewrite Ascii.eqb_refl.
  - intros [Hc Hs]%comma_free_cons. rewrite append_cons.
    cbn [Env.split_go]. by rewrite (IH Hs), Hc.
Qed.

(** Splitting undoes joining, for pieces without a comma. *)
Lemma split_join (ids : list string) :
  ids ≠ [] → Forall (fun s => comma_free s = true) ids →
  Env.split Env.comma (join "," ids) = ids.
Proof.
  intros Hne Hall. induction Hall as [|s ids Hs Hall IH]; [done|].
  destruct ids as [|s' ids].
  - unfold Env.split, join. simpl String.concat. by rewrite split_go_last.
  - unfold Env.split.
    change (join "," (s :: s' :: ids))
      with (s +:+ String Env.comma (join "," (s' :: ids))).
    rewrite (split_go_piece _ _ Hs). by rewrite IH.
Qed.

Lemma known_ids_of_plain (ids : list string) :
  Forall plain_id ids →
  Env.known_ticket_ids (Some (join "," ids)) = list_to_set ids.
Proof.
  intros Hall. unfold Env.known_ticket_ids. simpl default.
  destruct ids as [|s ids]; [done|].
  rewrite split_join; [|done|].
  2:{ eapply Forall_impl; [exact Hall|]. by intros ? (_ & ? & _). }
  f_equal. induction Hall as [|s0 l (Hne & _ & Hstrip) Hall IH]; [done|].
  rewrite fmap_cons, Hstrip, filter_cons_True by done. by rewrite IH.
Qed.

(** X15. The known ids survive the environment: a list of ids that are
    not empty, contain no comma and carry no white space at their ends,
    joined with commas into [KNOWN_TICKET_IDS], is read back as exactly
    that set.  Whatever the variable holds, the empty string is never a
    known id, and an id is known exactly when it is the trimmed, non-empty
    form of one of the comma-separated pieces; unset, no id is known. *)
Theorem known_ids_round_trip (ids : list string) :
  Forall plain_id ids →
  Env.known_ticket_ids (Some (join "," ids)) = list_to_set ids
  ∧ (∀ v, "" ∉ Env.known_ticket_ids v)
  ∧ (∀ v x, x ∈ Env.known_ticket_ids v
            ↔ x ≠ "" ∧ ∃ piece, x = strip piece
                                ∧ piece ∈ Env.split Env.comma (default "" v))
  ∧ Env.known_ticket_ids None = ∅.
Proof.
  intros Hall. split; [by apply known_ids_of_plain|].
  assert (Hmem : ∀ v x, x ∈ Env.known_ticket_ids v
            ↔ x ≠ "" ∧ ∃ piece, x = strip piece
                                ∧ piece ∈ Env.split Env.comma (default "" v)).
  { intros v x. unfold Env.known_ticket_ids.
    rewrite elem_of_list_to_set, list_elem_of_filter, list_elem_of_fmap.
    done. }
  split; [|split; [exact Hmem | done]].
  intros v [Hne _]%Hmem. done.
Qed.

Lemma known_ids_round_trip_witness :
  Env.known_ticket_ids (Some "1,7,42") = list_to_set ["1"; "7"; "42"].
Proof.
  destruct (known_ids_round_trip ["1"; "7"; "42"]) as [Hset _].
  - repeat constructor; discriminate.
  - exact Hset.
Defined.

(** Entries may be padded, and empty entries are dropped. *)
Example known_ids_padded :
  KNOWN_TICKET_IDS w_from_env = list_to_set ["1"; "7"; "42"]
  ∧ DEBUG_MODE w_from_env = true
  ∧ STOP_EXECUTION w_from_env = false.
Proof. repeat split. Qed.

Lemma lower_letter_inv (c : ascii) (l u : ascii) :
  (65 ≤ N_of_ascii u ≤ 90)%N → N_of_ascii l = (N_of_ascii u + 32)%N →
  Env.lower_letter c = l → c = l ∨ c = u.
Proof.
  intros Hu Hl. unfold Env.lower_letter.
  destruct ((65 <=? N_of_ascii c) && (N_of_ascii c <=? 90))%N eqn:Hc.
  - intros <-. right. apply andb_prop in Hc as [H1%N.leb_le H2%N.leb_le].
    rewrite N_ascii_embedding in Hl by lia.
    rewrite <- (ascii_N_embedding c), <- (ascii_N_embedding u).
    f_equal. lia.
  - auto.
Qed.

(** X17. A flag is set by the word "true" and nothing else: [DEBUG_MODE]
    and [STOP_EXECUTION] are on exactly when the variable holds the four
    letters t, r, u, e, each in either case -- so not for "1", "yes", "on"
    or a padded " true" -- and they are off when the variable is unset. *)
Theorem flag_needs_the_word_true (v : option string) :
  Env.flag v = true
  ↔ ∃ c1 c2 c3 c4 : ascii,
      v = Some (String c1 (String c2 (String c3 (String c4 ""))))
      ∧ (c1 = "t" ∨ c1 = "T")%char ∧ (c2 = "r" ∨ c2 = "R")%char
      ∧ (c3 = "u" ∨ c3 = "U")%char ∧ (c4 = "e" ∨ c4 = "E")%char.
Proof.
  split.
  - destruct v as [s|]; [|discriminate]. unfold Env.flag. simpl default.
    intros Heq%String.eqb_eq.
    destruct s as [|c1 [|c2 [|c3 [|c4 [|c5 s]]]]]; try discriminate.
    injection Heq as H1 H2 H3 H4. exists c1, c2, c3, c4.
    split; [done|].
    apply (lower_letter_inv _ "t" "T")%char in H1; [|done..].
    apply (lower_letter_inv _ "r" "R")%char in H2; [|done..].
    apply (lower_letter_inv _ "u" "U")%char in H3; [|done..].
    apply (lower_letter_inv _ "e" "E")%char in H4; [|done..].
    done.
  - intros (c1 & c2 & c3 & c4 & -> & [-> | ->] & [-> | ->] & [-> | ->]
              & [-> | ->]); reflexivity.
Qed.

(** ** The stand-alone script *)

(** X18. [send_message_twilio.py] sends what the notifier sends live, and
    has no dry run: its [send_message] hands Twilio exactly one message,
    with the configured recipient and sender and the body as given, prints
    the SID exactly when Twilio accepts and lets Twilio's exception out
    otherwise; the notifier's [send_message] makes the same call and ends
    the same way when [DEBUG_MODE] is off, and makes no call when it is
    on. *)
Theorem standalone_send_matches_live_send (w : world) (message : string) :
  Hello.created (fst (Hello.send_message w message))
    = [(TWILIO_TO_NUMBER w, TWILIO_FROM_NUMBER w, message)]
  ∧ (∀ sid, In (Hello.Print sid) (fst (Hello.send_message w message))
            ↔ twilio_create w message = Ok sid)
  ∧ (∀ e, snd (Hello.send_message w message) = Raise e
          ↔ twilio_create w message = Raise e)
  ∧ (DEBUG_MODE w = false →
     twilio_calls (trace (send_message w message))
       = Hello.created (fst (Hello.send_message w message))
     ∧ result (send_message w message) = snd (Hello.send_message w message))
  ∧ (DEBUG_MODE w = true →
     twilio_calls (trace (send_message w message)) = []).
Proof.
  unfold Hello.send_message.
  destruct (twilio_create w message) as [sid|e] eqn:Hc; simpl.
  - split; [done|]. split.
    { intros sid'. split; [intros [[=]|[[= ->]|[]]]; done | intros [= ->]].
      auto. }
    split; [done|]. split.
    + intros Hlive. by rewrite (send_message_delivered w message sid).
    + intros Hdry. by rewrite send_message_dry.
  - split; [done|]. split.
    { intros sid'. split; [intros [[=]|[]] | done]. }
    split; [split; by intros [= ->]|]. split.
    + intros Hlive. by rewrite (send_message_raises w message e).
    + intros Hdry. by rewrite send_message_dry.
Qed.

(** ** When the critical log is written *)

(** X19. The critical log line of [main] is written in exactly one case:
    the SMS raised, a webhook is configured, and the post raised an
    exception that is not a request error.  It is not written when the
    webhook is unconfigured, nor when the post fails with a request error
    (those are logged at [ERROR] severity inside the webhook function). *)
Theorem critical_log_iff_webhook_raises (w : world) (T : list record)
    (e : exn) :
  let new := diff w (KNOWN_TICKET_IDS w) T in
  let new_tickets := JDict <$> new in
  fetches w T → new ≠ [] → DEBUG_MODE w = false →
  twilio_create w (new_ticket_message new_tickets) = Raise e →
  existsb is_critical (trace (main w)) = true
  ↔ ∃ url e',
      webhook_configured w url
      ∧ http_post w url
          (webhook_payload url (webhook_message w new) new_tickets)
        = Raise e'
      ∧ is_request_exception e' = false.
Proof.
  intros new new_tickets Hfetch Hnew Hlive Hsms.
  destruct (main_notifies_effects w T Hfetch Hnew) as (_ & _ & _ & ->).
  fold new new_tickets.
  rewrite (notify_fallback w new_tickets e Hlive Hsms).
  destruct (WEBHOOK_URL w) as [url|] eqn:Hurl.
  - destruct (decide (url = "")) as [->|Hne].
    + rewrite send_webhook_unset by auto. simpl. split; [done|].
      intros (url & e' & [Hurl' Hne] & _). congruence.
    + assert (Hconf : webhook_configured w url) by done.
      unfold new_tickets. rewrite (send_webhook_configured w url new Hconf).
      fold new_tickets.
      destruct (http_post w url _) as [[]|e'] eqn:Hpost.
      * simpl. split; [done|].
        intros (url' & e'' & [Hurl' _] & Hpost' & _).
        assert (url' = url) as -> by congruence. congruence.
      * destruct (is_request_exception e') eqn:He'; simpl.
        -- split; [done|].
           intros (url' & e'' & [Hurl' _] & Hpost' & He'').
           assert (url' = url) as -> by congruence. congruence.
        -- split; [|done]. intros _. by exists url, e'.
  - rewrite send_webhook_unset by auto. simpl. split; [done|].
    intros (url & e' & [Hurl' Hne] & _). congruence.
Qed.

Lemma critical_log_iff_webhook_raises_witness :
  existsb is_critical (trace (main w_hook_broken)) = true
  ∧ existsb is_critical (trace (main w_hook_down)) = false.
Proof.
  assert (Hfetch : fetches w_hook_broken [ticket_A; ticket_B]).
  { split; [reflexivity|].
    exists [("children", JList [JDict ticket_A; JDict ticket_B])].
    split; [reflexivity|]. split; reflexivity. }
  split; [|reflexivity].
  apply (critical_log_iff_webhook_raises w_hook_broken [ticket_A; ticket_B]
           twilio_down Hfetch).
  - vm_compute. discriminate.
  - reflexivity.
  - reflexivity.
  - exists "https://hooks.example/notify", bad_payload.
    split; [split; [reflexivity | discriminate]|]. split; reflexivity.
Defined.

(** ** Witnesses *)

Lemma refusal_handled_like_fetch_failure_witness :
  sms_bodies (trace (main w_refused)) = ["FAILED"]
  ∧ posts (trace (main w_refused)) = []
  ∧ result (main w_refused) = Ok tt.
Proof.
  destruct (refusal_handled_like_fetch_failure w_refused
              [("status", JBool false); ("message", JStr "maintenance")])
    as (Hmain & Hs & Hp); [reflexivity | reflexivity | reflexivity |].
  split; [exact Hs|]. split; [exact Hp | by rewrite Hmain].
Defined.

Lemma listing_run_returns_witness :
  existsb is_critical (trace (main w_hook_broken)) = true
  ∧ result (main w_hook_broken) = Ok tt.
Proof.
  split; [reflexivity|].
  apply (listing_run_returns w_hook_broken [ticket_A; ticket_B]).
  split; [reflexivity|].
  exists [("children", JList [JDict ticket_A; JDict ticket_B])].
  split; [reflexivity|]. split; reflexivity.
Defined.
